(** * Authorization and token lifecycle of the Fitbit MCP server

    A shallow embedding of [src/auth.ts]: the module-level state
    ([accessToken], [tokenData], [oauthServer]), the single-row token table,
    and the functions [saveTokenToDB], [loadTokenFromDB],
    [startAuthorizationFlow], the [/callback] route and [getAccessToken].

    Effects are made explicit: every function takes the [World] it runs in and
    returns the [World] it leaves behind, and everything the module asks of
    the outside (log lines, SQL queries, token-endpoint requests, HTTP
    responses, listeners) is recorded in the world's [trace].  What the
    outside answers (query results, provider replies, clock readings) is an
    argument of the function that consumes it. *)

From Stdlib Require Import ZArith String Ascii List Lia Bool.
From stdpp Require Import base list.
Import ListNotations.

Local Open Scope string_scope.
Local Set Warnings "-register-all".

(** ** Data model *)

(** [interface FitbitTokenData]: the declared fields.  [expires_in] is a
    number of seconds, [expires_at] is optional. *)
Record FitbitTokenData := mkToken {
  access_token : string;
  refresh_token : string;
  expires_in : Z;
  expires_at : option string;
  scope : string;
  token_type : string;
  user_id : string
}.

(** JSON documents, as the [JSONB] column holds them and as the [pg] driver
    hands them back. *)
Inductive json :=
| JNull
| JBool (b : bool)
| JNum (n : Z)
| JStr (s : string)
| JArr (items : list json)
| JObj (members : list (string * json)).

(** The temporary callback server returned by [app.listen(PORT, ...)]. *)
Inductive Server := HttpServer (port : Z).

(** What a rejected promise carries.  A [simple-oauth2] error may have a
    [response] whose [text()] resolves ([Some (Some s)]) or rejects
    ([Some None]). *)
Inductive error :=
| PgError
| OAuthError (response : option (option string)).

(** A settled promise, or the result of a call that may throw. *)
Inductive outcome (A : Type) :=
| Returned (a : A)
| Thrown (e : error).
Arguments Returned {A} a.
Arguments Thrown {A} e.

(** Everything the module does to the outside world. *)
Inductive Event :=
| Log (msg : string)                       (* console.error *)
| Query_upsert (doc : json)                (* INSERT ... ON CONFLICT (id) DO UPDATE *)
| Query_select                             (* SELECT token_data ... WHERE id = 1 *)
| RefreshRequest (refresh : string)        (* accessTokenObj.refresh() *)
| ExchangeRequest (code redirect : string) (* oauthClient.getToken(tokenParams) *)
| Listen (port : Z)                        (* app.listen(PORT, ...) *)
| ServerClose (s : Server)                 (* oauthServer.close(...) *)
| Respond (status : Z) (body : string)     (* res.status(..).send(..) *)
| OpenBrowser (url : string).              (* open(authUrl) *)

(** The module-level variables of [auth.ts], the single row of the
    [fitbit_token] table ([None]: no row with [id = 1]), and the effects
    issued so far, most recent first. *)
Record World := mkWorld {
  accessToken : option string;
  tokenData : option FitbitTokenData;
  oauthServer : option Server;
  fitbit_token : option json;
  trace : list Event
}.

Definition emit (e : Event) (w : World) : World :=
  mkWorld (accessToken w) (tokenData w) (oauthServer w) (fitbit_token w)
          (e :: trace w).

Definition console_error (msg : string) : World -> World := emit (Log msg).

Definition set_credential (a : option string) (t : option FitbitTokenData)
  (w : World) : World :=
  mkWorld a t (oauthServer w) (fitbit_token w) (trace w).

Definition set_oauthServer (s : option Server) (w : World) : World :=
  mkWorld (accessToken w) (tokenData w) s (fitbit_token w) (trace w).

Definition set_fitbit_token (row : option json) (w : World) : World :=
  mkWorld (accessToken w) (tokenData w) (oauthServer w) row (trace w).

(** ** Counting effects *)

Definition is_refresh (e : Event) : bool :=
  match e with RefreshRequest _ => true | _ => false end.

Definition is_network (e : Event) : bool :=
  match e with RefreshRequest _ | ExchangeRequest _ _ => true | _ => false end.

Definition is_store_write (e : Event) : bool :=
  match e with Query_upsert _ => true | _ => false end.

Definition is_listen (e : Event) : bool :=
  match e with Listen _ => true | _ => false end.

Fixpoint count (p : Event -> bool) (t : list Event) : nat :=
  match t with
  | [] => 0
  | e :: t' => (if p e then 1 else 0) + count p t'
  end.

Definition refreshes (w : World) : nat := count is_refresh (trace w).
Definition network_calls (w : World) : nat := count is_network (trace w).
Definition store_writes (w : World) : nat := count is_store_write (trace w).
Definition listeners_bound (w : World) : nat := count is_listen (trace w).

(** ** JavaScript values *)

(** Truthiness of a [string | null]: [null] and [''] are falsy. *)
Definition truthy (s : option string) : bool :=
  match s with
  | Some s' => negb (String.eqb s' "")
  | None => false
  end.

(** Property read [o.k] on a value that came out of JSON; [None] is
    [undefined]. *)
Definition prop (k : string) (o : json) : option json :=
  match o with
  | JObj members =>
      match List.find (fun m => String.eqb (fst m) k) members with
      | Some m => Some (snd m)
      | None => None
      end
  | _ => None
  end.

(** The document that the text [JSON.stringify(tokenData)] denotes: one
    member per field, a field that is [undefined] is left out. *)
Definition JSON_stringify (t : FitbitTokenData) : json :=
  JObj ([("access_token", JStr (access_token t));
         ("refresh_token", JStr (refresh_token t));
         ("expires_in", JNum (expires_in t))]
        ++ match expires_at t with
           | Some s => [("expires_at", JStr s)]
           | None => []
           end
        ++ [("scope", JStr (scope t));
            ("token_type", JStr (token_type t));
            ("user_id", JStr (user_id t))]).

(** A JavaScript value of type [T | null] read from a document: the
    document [null] is the value [null]. *)
Definition nullable (v : json) : option json :=
  match v with
  | JNull => None
  | _ => Some v
  end.

(** An object read through the fields that [FitbitTokenData] declares.  The
    cast [as FitbitTokenData] checks nothing; this is the record the object
    stands for when every declared field holds a value of its declared
    type, and [None] when one does not. *)
Definition read_FitbitTokenData (o : json) : option FitbitTokenData :=
  match prop "access_token" o, prop "refresh_token" o, prop "expires_in" o,
        prop "scope" o, prop "token_type" o, prop "user_id" o with
  | Some (JStr a), Some (JStr r), Some (JNum n),
    Some (JStr sc), Some (JStr ty), Some (JStr u) =>
      match prop "expires_at" o with
      | Some (JStr e) => Some (mkToken a r n (Some e) sc ty u)
      | None => Some (mkToken a r n None sc ty u)
      | Some _ => None
      end
  | _, _, _, _, _, _ => None
  end.

(** ** Constants of the module *)

Definition PORT : Z := 3000.
Definition REDIRECT_URI : string := "http://localhost:3000/callback".

(** ** Sample built-ins and sample states

    Instances of the built-ins and a few concrete states, used to run the
    model. *)

Definition digit (c : ascii) : option Z :=
  let n := Z.of_N (N_of_ascii c) in
  if ((48 <=? n) && (n <=? 57))%Z then Some (n - 48)%Z else None.

Fixpoint decimal (acc : Z) (s : string) : option Z :=
  match s with
  | EmptyString => Some acc
  | String c s' =>
      match digit c with
      | Some d => decimal (10 * acc + d)%Z s'
      | None => None
      end
  end.

(** Days from 1970-01-01 to the given day of the proleptic Gregorian
    calendar. *)
Definition days_from_civil (y m d : Z) : Z :=
  let y := (if m <=? 2 then y - 1 else y)%Z in
  let era := (y / 400)%Z in
  let yoe := (y - era * 400)%Z in
  let doy := ((153 * (if m >? 2 then m - 3 else m + 9) + 2) / 5 + d - 1)%Z in
  let doe := (yoe * 365 + yoe / 4 - yoe / 100 + doy)%Z in
  (era * 146097 + doe - 719468)%Z.

Definition days_in_month (y m : Z) : Z :=
  if (m =? 2)%Z then
    if ((y mod 4 =? 0) && (negb (y mod 100 =? 0) || (y mod 400 =? 0)))%Z
    then 29%Z else 28%Z
  else if ((m =? 4) || (m =? 6) || (m =? 9) || (m =? 11))%Z then 30%Z
  else 31%Z.

(** A sample [Date_parse]: the time value of a string in the format of
    [Date.prototype.toISOString], [YYYY-MM-DDTHH:mm:ss.sssZ]; every other
    string is an invalid date. *)
Definition iso_instant (s : string) : option Z :=
  if negb (Nat.eqb (String.length s) 24) then None
  else if negb (String.eqb (substring 4 1 s ++ substring 7 1 s
                            ++ substring 10 1 s ++ substring 13 1 s
                            ++ substring 16 1 s ++ substring 19 1 s
                            ++ substring 23 1 s) "--T::.Z") then None
  else
    match decimal 0 (substring 0 4 s), decimal 0 (substring 5 2 s),
          decimal 0 (substring 8 2 s), decimal 0 (substring 11 2 s),
          decimal 0 (substring 14 2 s), decimal 0 (substring 17 2 s),
          decimal 0 (substring 20 3 s) with
    | Some y, Some m, Some d, Some hh, Some mm, Some ss, Some ms =>
        if ((1 <=? m) && (m <=? 12) && (1 <=? d) && (d <=? days_in_month y m)
            && (hh <=? 23) && (mm <=? 59) && (ss <=? 59))%Z
        then Some ((((days_from_civil y m d * 24 + hh) * 60 + mm) * 60 + ss)
                   * 1000 + ms)%Z
        else None
    | _, _, _, _, _, _, _ => None
    end.

(** A sample [JSON_parse] that knows the three literals; every other text
    is a syntax error. *)
Definition literal_JSON_parse (s : string) : option json :=
  if String.eqb s "null" then Some JNull
  else if String.eqb s "true" then Some (JBool true)
  else if String.eqb s "false" then Some (JBool false)
  else None.

(** A credential that expired at the start of 2024 and its replacement. *)
Definition stale_token : FitbitTokenData :=
  mkToken "AT1" "RT1" 28800 (Some "2024-01-01T00:00:00.000Z")
          "activity sleep" "Bearer" "USER1".

Definition renewed_token : FitbitTokenData :=
  mkToken "AT2" "RT2" 28800 (Some "2024-01-01T08:00:01.000Z")
          "activity sleep" "Bearer" "USER1".

(** A credential without [expires_at]. *)
Definition undated_token : FitbitTokenData :=
  mkToken "AT0" "RT0" 28800 None "activity sleep" "Bearer" "USER1".

(** The instant at which [stale_token] expires, and one second later. *)
Definition stale_expiry : Z := 1704067200000.
Definition one_second_later : Z := 1704067201000.

(** The state of a process that holds credential [t], in memory and in the
    table, and has no callback server. *)
Definition holding (t : FitbitTokenData) : World :=
  mkWorld (Some (access_token t)) (Some t) None (Some (JSON_stringify t)) [].

(** The state of a fresh process over an empty table. *)
Definition fresh_process : World := mkWorld None None None None [].

(** A table whose row holds a string that is not JSON text. *)
Definition garbled_table : World :=
  mkWorld None None None (Some (JStr "not json")) [].

(** A third credential, and two whose [expires_at] cannot be read. *)
Definition other_token : FitbitTokenData :=
  mkToken "AT3" "RT3" 28800 (Some "2024-01-01T08:00:02.000Z")
          "activity sleep" "Bearer" "USER1".

Definition blank_expiry_token : FitbitTokenData :=
  mkToken "AT4" "RT4" 28800 (Some "") "activity sleep" "Bearer" "USER1".

Definition odd_expiry_token : FitbitTokenData :=
  mkToken "AT5" "RT5" 28800 (Some "in eight hours")
          "activity sleep" "Bearer" "USER1".

(** A credential without access token. *)
Definition hollow_token : FitbitTokenData :=
  mkToken "" "RT6" 28800 (Some "2024-01-01T00:00:00.000Z")
          "activity sleep" "Bearer" "USER1".

(** The JSON text of [stale_token]. *)
Definition quote : string := String (ascii_of_nat 34) EmptyString.

Definition member_text (k v : string) : string :=
  quote ++ k ++ quote ++ ":" ++ quote ++ v ++ quote.

Definition stale_token_text : string :=
  "{" ++ member_text "access_token" "AT1" ++ ","
  ++ member_text "refresh_token" "RT1" ++ ","
  ++ quote ++ "expires_in" ++ quote ++ ":28800,"
  ++ member_text "expires_at" "2024-01-01T00:00:00.000Z" ++ ","
  ++ member_text "scope" "activity sleep" ++ ","
  ++ member_text "token_type" "Bearer" ++ ","
  ++ member_text "user_id" "USER1" ++ "}".

(** A sample [JSON_parse] that knows the text of [stale_token] and the
    three literals. *)
Definition sample_JSON_parse (s : string) : option json :=
  if String.eqb s (stale_token_text) then Some (JSON_stringify stale_token)
  else literal_JSON_parse s.

(** A table whose row holds the text of [stale_token] as a string. *)
Definition doubly_encoded_table : World :=
  mkWorld None None None (Some (JStr (stale_token_text))) [].

(** The state of a process whose callback server is up. *)
Definition awaiting_callback : World :=
  mkWorld None None (Some (HttpServer PORT)) None [Listen PORT].

Section Auth.

(** Built-ins and configuration the module depends on.

    [Date_parse s] is the time value of [new Date(s)] in milliseconds,
    [None] for an invalid date (NaN).  [JSON_parse s] is [JSON.parse(s)],
    [None] when it throws.  The client id and secret are
    [process.env.FITBIT_CLIENT_ID || ''] and
    [process.env.FITBIT_CLIENT_SECRET || '']. *)
Variable Date_parse : string -> option Z.
Variable JSON_parse : string -> option json.
Variable client_id : string.
Variable client_secret : string.

(** ** Token store *)

(** [saveTokenToDB] (auth.ts 125-141), up to its [await]: the upsert is
    sent with [JSON.stringify(tokenData)] as its parameter. *)
Definition saveTokenToDB_send (t : FitbitTokenData) (w : World) : World :=
  emit (Query_upsert (JSON_stringify t)) w.

(** [saveTokenToDB], from its [await] on.  A query that succeeded has
    replaced the row; a query that failed is logged and thrown again. *)
Definition saveTokenToDB_settle (reply : outcome unit) (doc : json) (w : World)
  : World * outcome unit :=
  match reply with
  | Returned _ =>
      (console_error "Token saved to database successfully"
         (set_fitbit_token (Some doc) w), Returned tt)
  | Thrown e =>
      (console_error "Error saving token to database: " w, Thrown e)
  end.

Definition saveTokenToDB (t : FitbitTokenData) (reply : outcome unit) (w : World)
  : World * outcome unit :=
  saveTokenToDB_settle reply (JSON_stringify t) (saveTokenToDB_send t w).

(** The rows of [SELECT token_data FROM fitbit_token WHERE id = 1]. *)
Definition select_rows (w : World) : list json :=
  match fitbit_token w with
  | Some doc => [doc]
  | None => []
  end.

(** [loadTokenFromDB] (auth.ts 147-170).  [reply] tells whether the query
    succeeded.  The result is [None] for [null]. *)
Definition loadTokenFromDB (reply : outcome unit) (w : World)
  : World * option json :=
  let w := emit Query_select w in
  match reply with
  | Thrown _ => (console_error "Error loading token from database: " w, None)
  | Returned _ =>
      match select_rows w with
      | [] => (console_error "No token found in database" w, None)
      | rawTokenData :: _ =>
          match rawTokenData with
          | JStr s =>
              (* typeof rawTokenData === 'string' *)
              match JSON_parse s with
              | Some v =>
                  (console_error "Token loaded from database successfully" w,
                   nullable v)
              | None =>
                  (console_error "Error loading token from database: " w, None)
              end
          | _ =>
              (console_error "Token loaded from database successfully" w,
               nullable rawTokenData)
          end
      end
  end.

(** ** Authorization flow *)

(** [!fitbitConfig.client.id || !fitbitConfig.client.secret]. *)
Definition unconfigured : bool :=
  String.eqb client_id "" || String.eqb client_secret "".

(** [startAuthorizationFlow] (auth.ts 179-302), the part that runs at the
    call. *)
Definition startAuthorizationFlow (w : World) : World :=
  match oauthServer w with
  | Some _ => console_error "OAuth server is already running." w
  | None =>
      if unconfigured then
        console_error
          "Error: Fitbit Client ID or Secret not found. Check environment variables."
          w
      else
        set_oauthServer (Some (HttpServer PORT)) (emit (Listen PORT) w)
  end.

(** The callback given to [app.listen]: runs once the server listens. *)
Definition on_listening (opened : outcome unit) (w : World) : World :=
  let w := console_error "ACTION REQUIRED: Fitbit Authorization Needed" w in
  let w := console_error "Waiting for authorization callback..." w in
  let w := emit (OpenBrowser "http://localhost:3000/auth") w in
  match opened with
  | Returned _ => console_error "Browser opened (or attempted)." w
  | Thrown _ => console_error "Failed to open browser automatically:" w
  end.

(** [oauthServer.on('error', ...)]. *)
Definition on_server_error (w : World) : World :=
  set_oauthServer None
    (console_error "Error starting temporary OAuth server:" w).

(** The callback given to [oauthServer.close] in the [finally] block: runs
    once the server has closed. *)
Definition on_server_closed (w : World) : World :=
  set_oauthServer None (console_error "OAuth server closed." w).

(** The [catch] block of the callback route. *)
Definition callback_catch (e : error) (w : World) : World :=
  let w := console_error "Error obtaining access token:" w in
  let w :=
    match e with
    | OAuthError (Some (Some _)) => console_error "Error details:" w
    | OAuthError (Some None) =>
        console_error "Could not parse error response body." w
    | _ => w
    end in
  emit (Respond 500 "Error obtaining access token. Check MCP server logs.") w.

(** The [finally] block of the callback route: the server is closed, the
    handle is reset later, by [on_server_closed]. *)
Definition callback_finally (w : World) : World :=
  match oauthServer w with
  | Some s =>
      emit (ServerClose s)
        (console_error "Shutting down temporary OAuth server..." w)
  | None => w
  end.

(** The branch of the callback route taken when [!code] holds. *)
Definition callback_missing_code (w : World) : World :=
  let w := console_error "Authorization code missing in callback." w in
  let w := emit (Respond 400 "Error: Authorization code missing.") w in
  match oauthServer w with
  | Some s => set_oauthServer None (emit (ServerClose s) w)
  | None => w
  end.

(** The handler of [GET /callback] (auth.ts 209-270), run to completion.
    [code] is [req.query.code]; [exchanged] and [saved] are what the token
    endpoint and the database answer. *)
Definition callback (code : option string)
  (exchanged : outcome FitbitTokenData) (saved : outcome unit) (w : World)
  : World :=
  match code with
  | None => callback_missing_code w
  | Some c =>
      if String.eqb c "" then callback_missing_code w
      else
        let w :=
          console_error "Received authorization code. Exchanging for token..." w in
        let w := emit (ExchangeRequest c REDIRECT_URI) w in
        let w :=
          match exchanged with
          | Returned token =>
              let w := console_error "Access Token received successfully!" w in
              let w := set_credential (Some (access_token token)) (Some token) w in
              match saveTokenToDB token saved w with
              | (w, Returned _) =>
                  let w :=
                    console_error "Token data has been persisted to database" w in
                  emit (Respond 200
                    "Authorization successful! You can close this window. The MCP Server is now authenticated.")
                    w
              | (w, Thrown e) => callback_catch e w
              end
          | Thrown e => callback_catch e w
          end in
        callback_finally w
  end.

(** ** Token manager *)

(** The left operand of the expiry test,
    [tokenData.expires_at && new Date(tokenData.expires_at)], as the time
    value it contributes: none when the field is [undefined] or [''] (both
    falsy) and none when the date is invalid (NaN compares false). *)
Definition expiry_instant (t : FitbitTokenData) : option Z :=
  match expires_at t with
  | Some s => if String.eqb s "" then None else Date_parse s
  | None => None
  end.

(** [AccessToken.expired()] of [simple-oauth2] with its default window of
    zero seconds, on a token whose [expires_at] has time value [t], read
    when the clock shows [now]: [t - now <= 0]. *)
Definition AccessToken_expired (t now : Z) : bool := (t - now <=? 0)%Z.

(** Where a call of [getAccessToken] stands: suspended at one of its two
    [await]s, or settled. *)
Inductive gat_state :=
| AwaitRefresh
| AwaitSave (doc : json)
| Finished (r : outcome (option string)).

(** The [catch (refreshError)] block. *)
Definition gat_catch (w : World) : World * gat_state :=
  (set_credential None None (console_error "Failed to refresh token:" w),
   Finished (Returned None)).

(** [getAccessToken] (auth.ts 309-344) from its call to its first [await]
    (or to its [return]).  [now] is the clock read by [new Date()] in the
    guard; [expired()] reads the clock [elapsed] milliseconds later. *)
Definition gat_call (now : Z) (elapsed : N) (w : World) : World * gat_state :=
  match tokenData w with
  | None =>
      (console_error "No valid access token found." w, Finished (Returned None))
  | Some t =>
      if negb (truthy (accessToken w)) then
        (console_error "No valid access token found." w, Finished (Returned None))
      else
        match expiry_instant t with
        | Some at_ =>
            if (at_ <? now)%Z then
              let w := console_error "Token is expired. Attempting to refresh..." w in
              if AccessToken_expired at_ (now + Z.of_N elapsed) then
                (emit (RefreshRequest (refresh_token t)) w, AwaitRefresh)
              else (w, Finished (Returned (accessToken w)))
            else (w, Finished (Returned (accessToken w)))
        | None => (w, Finished (Returned (accessToken w)))
        end
  end.

(** [getAccessToken] from the moment [refresh()] settles to the next
    [await]. *)
Definition gat_after_refresh (reply : outcome FitbitTokenData) (w : World)
  : World * gat_state :=
  match reply with
  | Returned token =>
      let w := set_credential (Some (access_token token)) (Some token) w in
      (saveTokenToDB_send token w, AwaitSave (JSON_stringify token))
  | Thrown _ => gat_catch w
  end.

(** [getAccessToken] from the moment the upsert settles to its [return]. *)
Definition gat_after_save (reply : outcome unit) (doc : json) (w : World)
  : World * gat_state :=
  match saveTokenToDB_settle reply doc w with
  | (w, Returned _) =>
      let w := console_error "Token refreshed and saved successfully." w in
      (w, Finished (Returned (accessToken w)))
  | (w, Thrown _) => gat_catch w
  end.

(** A promise that a suspended call waits for has settled. *)
Inductive settlement :=
| RefreshSettled (reply : outcome FitbitTokenData)
| SaveSettled (reply : outcome unit).

(** Resuming a call; a settlement the call does not wait for leaves it as
    it is. *)
Definition gat_resume (s : settlement) (st : gat_state) (w : World)
  : World * gat_state :=
  match st, s with
  | AwaitRefresh, RefreshSettled reply => gat_after_refresh reply w
  | AwaitSave doc, SaveSettled reply => gat_after_save reply doc w
  | _, _ => (w, st)
  end.

(** What the outside answers during one call of [getAccessToken]. *)
Record Replies := mkReplies {
  clock : Z;
  elapsed : N;
  refresh_reply : outcome FitbitTokenData;
  save_reply : outcome unit
}.

(** One call of [getAccessToken], alone, from call to settlement. *)
Definition getAccessToken (r : Replies) (w : World) : World * gat_state :=
  let '(w1, st1) := gat_call (clock r) (elapsed r) w in
  let '(w2, st2) := gat_resume (RefreshSettled (refresh_reply r)) st1 w1 in
  gat_resume (SaveSettled (save_reply r)) st2 w2.

(** ** Interleaved calls

    The process runs one piece of code at a time; a call gives up control
    only at an [await].  A run is a list of turns: a new call of
    [getAccessToken] (which runs to its first [await]), or the settlement
    of the promise that call number [i] waits for. *)
Inductive turn :=
| Call (now : Z) (elapsed : N)
| Settle (i : nat) (s : settlement).

Record System := mkSystem {
  world : World;
  calls : list gat_state
}.

Definition turn_step (sys : System) (t : turn) : System :=
  match t with
  | Call now elapsed =>
      let '(w, st) := gat_call now elapsed (world sys) in
      mkSystem w (calls sys ++ [st])
  | Settle i s =>
      match calls sys !! i with
      | Some st =>
          let '(w, st') := gat_resume s st (world sys) in
          mkSystem w (<[i := st']> (calls sys))
      | None => sys
      end
  end.

Definition run (ts : list turn) (sys : System) : System :=
  fold_left turn_step ts sys.

(** Calls made one after the other, before anything settles; each comes
    with its own clock readings. *)
Definition burst (clocks : list (Z * N)) : list turn :=
  map (fun c => Call (fst c) (snd c)) clocks.

(** ** Start-up

    [initializeDatabase] and [initializeAuth] of [auth.ts], and
    [validateEnvironment] and [main] of [http-server.ts]. *)

(** What the start-up code does to the outside beyond the effects of the
    token manager. *)
Inductive HostEvent :=
| Query_create_table            (* CREATE TABLE IF NOT EXISTS fitbit_token *)
| HttpListen (port : Z)         (* http-server.ts: app.listen(port, ...) *)
| SignalHandler (signal : string) (* process.on(signal, ...) *)
| ProcessExit (code : Z).       (* process.exit(code) *)

(** The process: the state of [auth.ts] and the start-up effects issued so
    far, most recent first.  Lines written with [console.error] go to the
    trace of [auth], whichever file writes them. *)
Record Host := mkHost {
  auth : World;
  host_trace : list HostEvent
}.

Definition on_auth (f : World -> World) (h : Host) : Host :=
  mkHost (f (auth h)) (host_trace h).

Definition host_emit (e : HostEvent) (h : Host) : Host :=
  mkHost (auth h) (e :: host_trace h).

Definition is_exit (e : HostEvent) : bool :=
  match e with ProcessExit _ => true | _ => false end.

Definition exited (h : Host) : bool := existsb is_exit (host_trace h).

Definition is_respond (e : Event) : bool :=
  match e with Respond _ _ => true | _ => false end.

Definition is_close (e : Event) : bool :=
  match e with ServerClose _ => true | _ => false end.

Definition is_select (e : Event) : bool :=
  match e with Query_select => true | _ => false end.

Definition responses (w : World) : nat := count is_respond (trace w).
Definition closes (w : World) : nat := count is_close (trace w).
Definition selects (w : World) : nat := count is_select (trace w).

(** [process.env]: a variable is [undefined] ([None]) or a string. *)
Record ProcessEnv := mkEnv {
  FITBIT_CLIENT_ID : option string;
  FITBIT_CLIENT_SECRET : option string;
  DATABASE_URL : option string;
  ENV_PORT : option string
}.

(** [v || d] on a [string | undefined]. *)
Definition or_else (v : option string) (d : string) : string :=
  match v with
  | Some s => if String.eqb s "" then d else s
  | None => d
  end.

(** [initializeDatabase] (auth.ts 99-116): the table is created when it is
    absent; a failure is logged and thrown again. *)
Definition initializeDatabase (reply : outcome unit) (h : Host)
  : Host * outcome unit :=
  let h := host_emit Query_create_table h in
  match reply with
  | Returned _ =>
      (on_auth (console_error "Database table initialized successfully") h,
       Returned tt)
  | Thrown e =>
      (on_auth (console_error "Error initializing database table:") h,
       Thrown e)
  end.

(** The inner [catch (refreshError)] block of [initializeAuth]. *)
Definition init_catch (w : World) : World :=
  set_credential None None (console_error "Error refreshing token:" w).

(** The part of [initializeAuth] that follows the assignment
    [tokenData = await loadTokenFromDB()], for a token read from the
    table. *)
Definition init_loaded (r : Replies) (t : FitbitTokenData) (w : World)
  : World :=
  let w := set_credential (accessToken w) (Some t) w in
  if String.eqb (access_token t) "" then
    console_error "No valid access token found." w
  else
    let w := set_credential (Some (access_token t)) (Some t) w in
    let w := console_error "Persisted access token loaded successfully." w in
    match expiry_instant t with
    | Some at_ =>
        if (at_ <? clock r)%Z then
          let w :=
            console_error "Token is expired. Attempting to refresh..." w in
          if AccessToken_expired at_ (clock r + Z.of_N (elapsed r)) then
            let w := emit (RefreshRequest (refresh_token t)) w in
            match refresh_reply r with
            | Returned token =>
                let w :=
                  set_credential (Some (access_token token)) (Some token) w in
                match saveTokenToDB token (save_reply r) w with
                | (w, Returned _) =>
                    console_error "Refreshed token saved successfully." w
                | (w, Thrown _) => init_catch w
                end
            | Thrown _ => init_catch w
            end
          else w
        else w
    | None => w
    end.

(** [initializeAuth] (auth.ts 350-396), run to completion.  [created] and
    [selected] are what the database answers to the two queries, [r] what
    the clock shows and what the provider and the database answer to a
    refresh.

    The value that [loadTokenFromDB] returns is assigned to [tokenData],
    whose type is [FitbitTokenData | null]; the source checks nothing
    there.  The result is [None] when that value is an object that does
    not have the declared fields with their declared types, the one case
    the declared types leave no room for. *)
Definition initializeAuth (created selected : outcome unit) (r : Replies)
  (h : Host) : option Host :=
  let h :=
    on_auth
      (console_error
         "Auth initialized. Initializing database and checking for persisted token...")
      h in
  match initializeDatabase created h with
  | (h, Thrown _) =>
      Some (on_auth (console_error "Error during token initialization:") h)
  | (h, Returned _) =>
      let '(w, loaded) := loadTokenFromDB selected (auth h) in
      match loaded with
      | None =>
          Some (mkHost
                  (console_error "No valid access token found."
                     (set_credential (accessToken w) None w))
                  (host_trace h))
      | Some o =>
          match read_FitbitTokenData o with
          | Some t => Some (mkHost (init_loaded r t w) (host_trace h))
          | None => None
          end
      end
  end.

(** [requiredVars] of [validateEnvironment], in the order of the object
    literal. *)
Definition requiredVars (env : ProcessEnv) : list (string * option string) :=
  [("FITBIT_CLIENT_ID", FITBIT_CLIENT_ID env);
   ("FITBIT_CLIENT_SECRET", FITBIT_CLIENT_SECRET env);
   ("DATABASE_URL", DATABASE_URL env)].

(** [missingVars]: the names whose value is falsy. *)
Definition missingVars (env : ProcessEnv) : list string :=
  map fst (List.filter (fun kv => negb (truthy (snd kv))) (requiredVars env)).

(** [validateEnvironment] (http-server.ts 40-60). *)
Definition validateEnvironment (env : ProcessEnv) (h : Host) : Host :=
  match missingVars env with
  | [] => h
  | missing =>
      let h :=
        on_auth (console_error "Missing required environment variables:") h in
      let h :=
        fold_left
          (fun h varName => on_auth (console_error ("   - " ++ varName)) h)
          missing h in
      let h := on_auth (console_error "Please create a .env file at: ") h in
      let h :=
        on_auth
          (console_error
             "See README.md for details on getting Fitbit API credentials.")
          h in
      host_emit (ProcessExit 1) h
  end.

(** The three required variables are all set to a string that is not
    empty. *)
Definition environment_complete (env : ProcessEnv) : bool :=
  truthy (FITBIT_CLIENT_ID env) && truthy (FITBIT_CLIENT_SECRET env)
  && truthy (DATABASE_URL env).



(** A new process over the table that [w] leaves behind. *)
Definition restart (w : World) : Host :=
  mkHost (mkWorld None None None (fitbit_token w) []) [].

(** Two calls race on an expired credential and both refreshes are granted,
    with [first] and [second]; the save of the second call settles before
    the save of the first. *)
Definition crossed_saves (now : Z) (first second : FitbitTokenData)
  : list turn :=
  [ Call now 0;
    Call now 0;
    Settle 0 (RefreshSettled (Returned first));
    Settle 1 (RefreshSettled (Returned second));
    Settle 1 (SaveSettled (Returned tt));
    Settle 0 (SaveSettled (Returned tt)) ].

(** A process that has just started, over an empty table. *)
Definition fresh_host : Host := mkHost fresh_process [].

(** Environments: everything set; the secret empty and the URL unset. *)
Definition complete_env : ProcessEnv :=
  mkEnv (Some "23ABCD") (Some "secret") (Some "postgres://db/fitbit") None.

Definition incomplete_env : ProcessEnv :=
  mkEnv (Some "23ABCD") (Some "") None (Some "8080").

(** Sample answers of the outside to one call made at [now]: the provider
    grants the refresh and the save succeeds; the provider rejects the
    refresh; the provider grants the refresh and the save fails. *)
Definition refresh_granted (now : Z) : Replies :=
  mkReplies now 0 (Returned renewed_token) (Returned tt).

Definition refresh_rejected (now : Z) : Replies :=
  mkReplies now 0 (Thrown (OAuthError None)) (Returned tt).

Definition save_failed (now : Z) : Replies :=
  mkReplies now 0 (Returned renewed_token) (Thrown PgError).

(** Two calls race on an expired credential: both are made before anything
    settles; the first call's refresh is granted and saved, the second
    call's refresh is rejected. *)
Definition racing_calls : list turn :=
  [ Call one_second_later 0;
    Call one_second_later 0;
    Settle 0 (RefreshSettled (Returned renewed_token));
    Settle 0 (SaveSettled (Returned tt));
    Settle 1 (RefreshSettled (Thrown (OAuthError None))) ].

(** Two calls race on an expired credential: the refresh of the first is
    granted with [first], then the refresh of the second fails with [e],
    then the save of the first succeeds. *)
Definition rejected_after_granted (now : Z) (first : FitbitTokenData)
  (e : error) : list turn :=
  [ Call now 0;
    Call now 0;
    Settle 0 (RefreshSettled (Returned first));
    Settle 1 (RefreshSettled (Thrown e));
    Settle 0 (SaveSettled (Returned tt)) ].

(** The status codes of the responses sent so far, most recent first. *)
Fixpoint statuses (t : list Event) : list Z :=
  match t with
  | [] => []
  | Respond status _ :: t' => status :: statuses t'
  | _ :: t' => statuses t'
  end.

(** The credential does not count as expired when the clock shows [now]:
    its expiry instant is not before [now], or it has none. *)
Definition fresh_at (t : FitbitTokenData) (now : Z) : Prop :=
  match expiry_instant t with
  | Some at_ => (now <= at_)%Z
  | None => True
  end.

(** A credential is cached when both module variables are set and the
    access token is not the empty string. *)
Definition cached (w : World) (t : FitbitTokenData) (tok : string) : Prop :=
  tokenData w = Some t /\ accessToken w = Some tok /\ tok <> "".

(** * Properties *)

Lemma cached_truthy w t tok : cached w t tok -> truthy (accessToken w) = true.
Proof.
  intros (_ & Ha & Hne). rewrite Ha. simpl.
  apply negb_true_iff, String.eqb_neq, Hne.
Qed.

Lemma not_truthy_None_or_empty (a : option string) :
  truthy a = false <-> a = None \/ a = Some "".
Proof.
  destruct a as [s|]; simpl.
  - rewrite negb_false_iff, String.eqb_eq. split.
    + intros ->. now right.
    + intros [H|H]; congruence.
  - split; [now left | reflexivity].
Qed.

(** The first step of a call on an expired credential: one log line, one
    refresh request, and the call waits. *)
Lemma gat_call_expired now el w t tok at_ :
  cached w t tok -> expiry_instant t = Some at_ -> (at_ < now)%Z ->
  gat_call now el w =
    (emit (RefreshRequest (refresh_token t))
       (console_error "Token is expired. Attempting to refresh..." w),
     AwaitRefresh).
Proof.
  intros Hc Hat Hlt. unfold gat_call.
  rewrite (cached_truthy _ _ _ Hc). destruct Hc as (Ht & _ & _).
  rewrite Ht, Hat. simpl.
  assert ((at_ <? now)%Z = true) as -> by (apply Z.ltb_lt; exact Hlt).
  unfold AccessToken_expired.
  assert ((at_ - (now + Z.of_N el) <=? 0)%Z = true) as ->
    by (apply Z.leb_le; lia).
  reflexivity.
Qed.

(** The first step of a call on a credential that is not expired returns
    at once and touches nothing. *)
Lemma gat_call_valid now el w t tok :
  cached w t tok ->
  match expiry_instant t with Some at_ => (now <= at_)%Z | None => True end ->
  gat_call now el w = (w, Finished (Returned (Some tok))).
Proof.
  intros Hc Hat. unfold gat_call.
  rewrite (cached_truthy _ _ _ Hc). destruct Hc as (Ht & Ha & _).
  rewrite Ht. simpl. destruct (expiry_instant t) as [at_|].
  - assert ((at_ <? now)%Z = false) as -> by (apply Z.ltb_ge; exact Hat).
    now rewrite Ha.
  - now rewrite Ha.
Qed.

(** The first step of a call without a cached credential. *)
Lemma gat_call_absent now el w :
  tokenData w = None \/ truthy (accessToken w) = false ->
  gat_call now el w =
    (console_error "No valid access token found." w, Finished (Returned None)).
Proof.
  intros H. unfold gat_call. destruct (tokenData w) as [t|]; [|reflexivity].
  destruct H as [H|H]; [discriminate|]. now rewrite H.
Qed.


(** C2: without a cached credential [getAccessToken] returns [null] at
    once, with no network call and no store write; with a cached credential
    whose expiry instant is not before the current time (equal to it
    included: the test is a strict less-than, without margin) it returns the
    cached access token and leaves the world as it was; one millisecond past
    the expiry instant the refresh is attempted. *)
Theorem getAccessToken_serves_from_cache (r : Replies) (w : World) :
  ((tokenData w = None \/ truthy (accessToken w) = false) ->
     getAccessToken r w =
       (console_error "No valid access token found." w, Finished (Returned None))
     /\ network_calls (fst (getAccessToken r w)) = network_calls w
     /\ store_writes (fst (getAccessToken r w)) = store_writes w)
  /\ (forall t tok at_,
        cached w t tok -> expiry_instant t = Some at_ -> (clock r <= at_)%Z ->
        getAccessToken r w = (w, Finished (Returned (Some tok))))
  /\ (forall t tok at_,
        cached w t tok -> expiry_instant t = Some at_ -> (at_ < clock r)%Z ->
        refreshes (fst (getAccessToken r w)) = S (refreshes w)).
Proof.
  split; [|split].
  - intros H. unfold getAccessToken. rewrite (gat_call_absent _ _ _ H). simpl.
    repeat split; reflexivity.
  - intros t tok at_ Hc Hat Hle. unfold getAccessToken.
    rewrite (gat_call_valid _ _ _ t tok Hc); [reflexivity|].
    now rewrite Hat.
  - intros t tok at_ Hc Hat Hlt. unfold getAccessToken.
    rewrite (gat_call_expired _ _ _ t tok at_ Hc Hat Hlt). simpl.
    destruct (refresh_reply r) as [new|e]; simpl.
    + destruct (save_reply r); reflexivity.
    + reflexivity.
Qed.

(** C10: a cached credential without [expires_at] is served as it is,
    whatever the clock shows and whatever the outside would answer: the
    world is left untouched, so no refresh and no store write happen. *)
Theorem getAccessToken_without_expiry (r : Replies) (w : World)
  (t : FitbitTokenData) (tok : string) :
  cached w t tok -> expires_at t = None ->
  getAccessToken r w = (w, Finished (Returned (Some tok)))
  /\ refreshes (fst (getAccessToken r w)) = refreshes w
  /\ store_writes (fst (getAccessToken r w)) = store_writes w.
Proof.
  intros Hc Hnone.
  assert (getAccessToken r w = (w, Finished (Returned (Some tok)))) as E.
  { unfold getAccessToken. rewrite (gat_call_valid _ _ _ t tok Hc); [reflexivity|].
    unfold expiry_instant. now rewrite Hnone. }
  rewrite E. repeat split; reflexivity.
Qed.

(** C1, as amended: on a cached credential whose expiry instant is in the
    past [getAccessToken] issues exactly one refresh request and settles
    with a value, never with an exception.  When the refresh succeeds and
    the save that follows succeeds, the cache and the table hold the new
    credential and the new access token is returned.  When the refresh
    fails, the cache is cleared and [null] is returned. *)
Theorem getAccessToken_refreshes_once (r : Replies) (w : World)
  (t : FitbitTokenData) (tok : string) (at_ : Z) :
  cached w t tok -> expiry_instant t = Some at_ -> (at_ < clock r)%Z ->
  refreshes (fst (getAccessToken r w)) = S (refreshes w)
  /\ (exists v, snd (getAccessToken r w) = Finished (Returned v))
  /\ (forall new,
        refresh_reply r = Returned new -> save_reply r = Returned tt ->
        accessToken (fst (getAccessToken r w)) = Some (access_token new)
        /\ tokenData (fst (getAccessToken r w)) = Some new
        /\ fitbit_token (fst (getAccessToken r w)) = Some (JSON_stringify new)
        /\ store_writes (fst (getAccessToken r w)) = S (store_writes w)
        /\ snd (getAccessToken r w) = Finished (Returned (Some (access_token new))))
  /\ (forall e,
        refresh_reply r = Thrown e ->
        accessToken (fst (getAccessToken r w)) = None
        /\ tokenData (fst (getAccessToken r w)) = None
        /\ snd (getAccessToken r w) = Finished (Returned None)).
Proof.
  intros Hc Hat Hlt. unfold getAccessToken.
  rewrite (gat_call_expired _ _ _ t tok at_ Hc Hat Hlt). simpl.
  destruct (refresh_reply r) as [new|e]; simpl.
  - destruct (save_reply r) as [[]|e']; simpl.
    + split; [reflexivity|]. split; [eauto|]. split.
      * intros new' E _. injection E as <-. repeat split; reflexivity.
      * intros e E. discriminate E.
    + split; [reflexivity|]. split; [eauto|]. split.
      * intros new' _ E. discriminate E.
      * intros e E. discriminate E.
  - split; [reflexivity|]. split; [eauto|]. split.
    + intros new' E. discriminate E.
    + intros e' _. repeat split; reflexivity.
Qed.

(** C5: when the cached credential is expired and the provider rejects the
    refresh, [getAccessToken] returns [null], sends no query that writes,
    and the table keeps the row it had: a stale credential stored there is
    still there. *)
Theorem getAccessToken_rejected_refresh_keeps_store (r : Replies) (w : World)
  (t : FitbitTokenData) (tok : string) (at_ : Z) (e : error) :
  cached w t tok -> expiry_instant t = Some at_ -> (at_ < clock r)%Z ->
  refresh_reply r = Thrown e ->
  snd (getAccessToken r w) = Finished (Returned None)
  /\ fitbit_token (fst (getAccessToken r w)) = fitbit_token w
  /\ store_writes (fst (getAccessToken r w)) = store_writes w
  /\ (fitbit_token w = Some (JSON_stringify t) ->
      fitbit_token (fst (getAccessToken r w)) = Some (JSON_stringify t)).
Proof.
  intros Hc Hat Hlt Hrej. unfold getAccessToken.
  rewrite (gat_call_expired _ _ _ t tok at_ Hc Hat Hlt). simpl.
  rewrite Hrej. simpl. repeat split; try reflexivity. intros H; exact H.
Qed.

Lemma start_running w s :
  oauthServer w = Some s ->
  startAuthorizationFlow w = console_error "OAuth server is already running." w.
Proof. intros H. unfold startAuthorizationFlow. now rewrite H. Qed.

Lemma start_unconfigured w :
  oauthServer w = None -> unconfigured = true ->
  startAuthorizationFlow w
  = console_error
      "Error: Fitbit Client ID or Secret not found. Check environment variables."
      w.
Proof.
  intros H C. unfold startAuthorizationFlow. now rewrite H, C.
Qed.

Lemma start_idle w :
  oauthServer w = None -> unconfigured = false ->
  startAuthorizationFlow w
  = set_oauthServer (Some (HttpServer PORT)) (emit (Listen PORT) w).
Proof.
  intros H C. unfold startAuthorizationFlow. now rewrite H, C.
Qed.

Lemma configured : client_id <> "" -> client_secret <> "" -> unconfigured = false.
Proof.
  intros Hid Hsecret. unfold unconfigured.
  apply String.eqb_neq in Hid, Hsecret. now rewrite Hid, Hsecret.
Qed.

(** C6: while the server handle is set, [startAuthorizationFlow] only
    writes a log line: the handle, the credential and the table are as
    before and no listener is bound.  Two calls in a row never bind more
    than the first one did, and from an idle, configured module they bind
    exactly one listener. *)
Theorem startAuthorizationFlow_single_session (w : World) :
  (forall s, oauthServer w = Some s ->
     startAuthorizationFlow w
       = console_error "OAuth server is already running." w
     /\ oauthServer (startAuthorizationFlow w) = Some s
     /\ listeners_bound (startAuthorizationFlow w) = listeners_bound w)
  /\ listeners_bound (startAuthorizationFlow (startAuthorizationFlow w))
     = listeners_bound (startAuthorizationFlow w)
  /\ listeners_bound (startAuthorizationFlow (startAuthorizationFlow w))
     <= S (listeners_bound w)
  /\ (oauthServer w = None -> client_id <> "" -> client_secret <> "" ->
      listeners_bound (startAuthorizationFlow (startAuthorizationFlow w))
        = S (listeners_bound w)
      /\ oauthServer (startAuthorizationFlow (startAuthorizationFlow w))
        = Some (HttpServer PORT)).
Proof.
  assert (forall s, oauthServer w = Some s ->
            startAuthorizationFlow (startAuthorizationFlow w)
            = console_error "OAuth server is already running."
                (console_error "OAuth server is already running." w)) as Hrun.
  { intros s Hs. rewrite (start_running w s Hs).
    now rewrite (start_running _ s). }
  assert (oauthServer w = None -> unconfigured = false ->
            startAuthorizationFlow (startAuthorizationFlow w)
            = console_error "OAuth server is already running."
                (set_oauthServer (Some (HttpServer PORT)) (emit (Listen PORT) w)))
    as Hidle.
  { intros O C. rewrite (start_idle w O C).
    now rewrite (start_running _ (HttpServer PORT)). }
  split; [|split; [|split]].
  - intros s Hs. rewrite (start_running w s Hs).
    split; [reflexivity|]. split; [exact Hs | reflexivity].
  - destruct (oauthServer w) as [s|] eqn:O.
    + rewrite (Hrun s eq_refl), (start_running w s O). reflexivity.
    + destruct unconfigured eqn:C.
      * rewrite (start_unconfigured w O C).
        now rewrite (start_unconfigured (console_error _ w) O C).
      * rewrite (Hidle eq_refl eq_refl), (start_idle w O C). reflexivity.
  - destruct (oauthServer w) as [s|] eqn:O.
    + rewrite (Hrun s eq_refl). unfold listeners_bound. simpl. lia.
    + destruct unconfigured eqn:C.
      * rewrite (start_unconfigured w O C).
        rewrite (start_unconfigured (console_error _ w) O C).
        unfold listeners_bound. simpl. lia.
      * rewrite (Hidle eq_refl eq_refl). unfold listeners_bound. simpl. lia.
  - intros O Hid Hsecret. rewrite (Hidle O (configured Hid Hsecret)).
    split; reflexivity.
Qed.

(** C7: a callback request without a [code] (absent, or empty) is answered
    with status 400; the server, when the handle is set, is closed and the
    handle is reset, so that a configured [startAuthorizationFlow] binds a
    listener again; the cached credential and the table are untouched and
    no token request is made. *)
Theorem callback_without_code (code : option string)
  (exchanged : outcome FitbitTokenData) (saved : outcome unit) (w : World) :
  truthy code = false ->
  trace (callback code exchanged saved w)
    = (match oauthServer w with Some s => [ServerClose s] | None => [] end
       ++ Respond 400 "Error: Authorization code missing."
          :: Log "Authorization code missing in callback." :: trace w)%list
  /\ oauthServer (callback code exchanged saved w) = None
  /\ accessToken (callback code exchanged saved w) = accessToken w
  /\ tokenData (callback code exchanged saved w) = tokenData w
  /\ fitbit_token (callback code exchanged saved w) = fitbit_token w
  /\ (client_id <> "" -> client_secret <> "" ->
      oauthServer (startAuthorizationFlow (callback code exchanged saved w))
        = Some (HttpServer PORT)
      /\ listeners_bound (startAuthorizationFlow (callback code exchanged saved w))
        = S (listeners_bound w)).
Proof.
  intros Hcode.
  assert (callback code exchanged saved w = callback_missing_code w) as ->.
  { apply not_truthy_None_or_empty in Hcode as [-> | ->]; reflexivity. }
  assert (oauthServer (callback_missing_code w) = None) as Hnone.
  { unfold callback_missing_code. simpl.
    destruct (oauthServer w) eqn:O; simpl; [reflexivity | exact O]. }
  assert (listeners_bound (callback_missing_code w) = listeners_bound w) as Hl.
  { unfold callback_missing_code, listeners_bound. simpl.
    destruct (oauthServer w); reflexivity. }
  split; [|split; [|split; [|split; [|split]]]].
  - unfold callback_missing_code. simpl. destruct (oauthServer w); reflexivity.
  - exact Hnone.
  - unfold callback_missing_code. simpl. destruct (oauthServer w); reflexivity.
  - unfold callback_missing_code. simpl. destruct (oauthServer w); reflexivity.
  - unfold callback_missing_code. simpl. destruct (oauthServer w); reflexivity.
  - intros Hid Hsecret.
    rewrite (start_idle _ Hnone (configured Hid Hsecret)).
    split; [reflexivity|]. unfold listeners_bound in *. simpl. now rewrite Hl.
Qed.

(** C8: [loadTokenFromDB] answers [null] when the table has no row, when
    the query fails, and when the row holds a string that does not parse;
    a failed query on a table that holds a row gives the very result that
    a successful query on an empty table gives. *)
Theorem loadTokenFromDB_null_is_ambiguous (w : World) :
  (fitbit_token w = None -> snd (loadTokenFromDB (Returned tt) w) = None)
  /\ (forall e, snd (loadTokenFromDB (Thrown e) w) = None)
  /\ (forall s, fitbit_token w = Some (JStr s) -> JSON_parse s = None ->
        snd (loadTokenFromDB (Returned tt) w) = None)
  /\ (forall e,
        snd (loadTokenFromDB (Thrown e) w)
        = snd (loadTokenFromDB (Returned tt) (set_fitbit_token None w))).
Proof.
  unfold loadTokenFromDB, select_rows. simpl. repeat split.
  - intros ->. reflexivity.
  - intros s -> ->. reflexivity.
Qed.

(** C9: after a successful [saveTokenToDB C], whatever the table held
    before, a successful [loadTokenFromDB] returns an object whose declared
    fields are those of [C], field for field. *)
Theorem save_then_load_roundtrip (C : FitbitTokenData) (w : World) :
  exists o,
    snd (loadTokenFromDB (Returned tt) (fst (saveTokenToDB C (Returned tt) w)))
      = Some o
    /\ o = JSON_stringify C
    /\ read_FitbitTokenData o = Some C.
Proof.
  exists (JSON_stringify C). repeat split.
  destruct C as [a r n [e|] sc ty u]; reflexivity.
Qed.

Lemma run_burst (t : FitbitTokenData) (tok : string) (at_ : Z)
  (clocks : list (Z * N)) :
  expiry_instant t = Some at_ ->
  Forall (fun c => (at_ < fst c)%Z) clocks ->
  forall w cl, cached w t tok ->
    refreshes (world (run (burst clocks) (mkSystem w cl)))
      = length clocks + refreshes w
    /\ calls (run (burst clocks) (mkSystem w cl))
      = (cl ++ replicate (length clocks) AwaitRefresh)%list
    /\ cached (world (run (burst clocks) (mkSystem w cl))) t tok.
Proof.
  intros Hat Hall. induction Hall as [|[now el] clocks Hlt _ IH]; intros w cl Hc.
  - simpl. rewrite app_nil_r. auto.
  - simpl in Hlt. simpl.
    rewrite (gat_call_expired _ _ _ t tok at_ Hc Hat Hlt).
    match goal with
    | |- context [mkSystem ?w1 ?cl1] =>
        destruct (IH w1 cl1) as (Hn & Hcalls & Hc')
    end.
    { destruct Hc as (? & ? & ?). repeat split; assumption. }
    rewrite Hn, Hcalls. split; [|split].
    + unfold refreshes. simpl. lia.
    + now rewrite <- app_assoc.
    + exact Hc'.
Qed.

(** When the save fails after a granted refresh, the [catch] block of
    [getAccessToken] runs: the new credential is dropped from memory. *)
Lemma getAccessToken_failed_save_clears_cache (r : Replies) (w : World)
  (t : FitbitTokenData) (tok : string) (at_ : Z) (new : FitbitTokenData)
  (e : error) :
  cached w t tok -> expiry_instant t = Some at_ -> (at_ < clock r)%Z ->
  refresh_reply r = Returned new -> save_reply r = Thrown e ->
  accessToken (fst (getAccessToken r w)) = None
  /\ tokenData (fst (getAccessToken r w)) = None
  /\ fitbit_token (fst (getAccessToken r w)) = fitbit_token w
  /\ snd (getAccessToken r w) = Finished (Returned None).
Proof.
  intros Hc Hat Hlt Hnew Hsave. unfold getAccessToken.
  rewrite (gat_call_expired _ _ _ t tok at_ Hc Hat Hlt). simpl.
  rewrite Hnew. simpl. rewrite Hsave. simpl. repeat split; reflexivity.
Qed.

(** When the save fails after a code exchange, the [catch] block of the
    callback route runs: the browser gets status 500, and the new
    credential stays in memory. *)
Lemma callback_failed_save_keeps_cache (c : string) (token : FitbitTokenData)
  (e : error) (w : World) :
  c <> "" ->
  accessToken (callback (Some c) (Returned token) (Thrown e) w)
    = Some (access_token token)
  /\ tokenData (callback (Some c) (Returned token) (Thrown e) w) = Some token
  /\ fitbit_token (callback (Some c) (Returned token) (Thrown e) w)
    = fitbit_token w.
Proof.
  intros Hc. apply String.eqb_neq in Hc. unfold callback. rewrite Hc. simpl.
  unfold callback_finally, callback_catch. simpl.
  destruct e as [|[[d|]|]]; simpl; destruct (oauthServer w); repeat split.
Qed.

(** C3, as amended: calls of [getAccessToken] made one after the other
    while the cached credential is expired, before any refresh has settled,
    issue one refresh request each, and every one of them is left waiting
    for its own refresh; the cache is still the expired credential. *)
Theorem concurrent_calls_refresh_each (w : World) (t : FitbitTokenData)
  (tok : string) (at_ : Z) (clocks : list (Z * N)) :
  cached w t tok -> expiry_instant t = Some at_ ->
  Forall (fun c => (at_ < fst c)%Z) clocks ->
  refreshes (world (run (burst clocks) (mkSystem w [])))
    = length clocks + refreshes w
  /\ calls (run (burst clocks) (mkSystem w []))
    = replicate (length clocks) AwaitRefresh
  /\ cached (world (run (burst clocks) (mkSystem w []))) t tok.
Proof.
  intros Hc Hat Hall. exact (run_burst t tok at_ clocks Hat Hall w [] Hc).
Qed.

(** * Further properties of the token manager *)

(** Every way a call of [getAccessToken] made alone can go. *)
Ltac gat_cases r w :=
  unfold getAccessToken, gat_call;
  destruct (tokenData w) as [?t|]; simpl; [|];
  [destruct (truthy (accessToken w)); simpl; [|];
   [destruct (expiry_instant _) as [?at_|]; simpl; [|];
    [destruct (_ <? clock r)%Z; simpl; [|];
     [destruct (AccessToken_expired _ _); simpl; [|];
      [destruct (refresh_reply r) as [?new|?e] eqn:?Hrefresh; simpl; [|];
       [destruct (save_reply r) as [[]|?e] eqn:?Hsave; simpl|]
      |]
     |]
    |]
   |]
  |].

(** X1: an [expires_at] that is the empty string, or that is not a date,
    counts as no expiry at all: the cached token is served and nothing is
    sent, whatever the clock shows. *)
Theorem getAccessToken_unreadable_expiry (r : Replies) (w : World)
  (t : FitbitTokenData) (tok s : string) :
  cached w t tok -> expires_at t = Some s -> s = "" \/ Date_parse s = None ->
  getAccessToken r w = (w, Finished (Returned (Some tok))).
Proof.
  intros Hc Hs Hbad. unfold getAccessToken.
  rewrite (gat_call_valid _ _ _ t tok Hc); [reflexivity|].
  unfold expiry_instant. rewrite Hs.
  destruct Hbad as [-> | Hnone]; [reflexivity|].
  destruct (String.eqb s ""); [exact I | now rewrite Hnone].
Qed.

(** X2: once a refresh has failed (the provider rejected it, or the save
    that followed it failed), the next call returns [null] at once: no
    second refresh is attempted and nothing is written. *)
Theorem getAccessToken_after_failed_refresh (r r' : Replies) (w : World)
  (t : FitbitTokenData) (tok : string) (at_ : Z) :
  cached w t tok -> expiry_instant t = Some at_ -> (at_ < clock r)%Z ->
  (exists e, refresh_reply r = Thrown e) \/ (exists e, save_reply r = Thrown e) ->
  snd (getAccessToken r' (fst (getAccessToken r w))) = Finished (Returned None)
  /\ refreshes (fst (getAccessToken r' (fst (getAccessToken r w))))
     = S (refreshes w)
  /\ store_writes (fst (getAccessToken r' (fst (getAccessToken r w))))
     = store_writes (fst (getAccessToken r w))
  /\ fitbit_token (fst (getAccessToken r' (fst (getAccessToken r w))))
     = fitbit_token w.
Proof.
  intros Hc Hat Hlt Hfail.
  assert (tokenData (fst (getAccessToken r w)) = None
          /\ refreshes (fst (getAccessToken r w)) = S (refreshes w)
          /\ fitbit_token (fst (getAccessToken r w)) = fitbit_token w)
    as (Hnone & Hn & Hrow).
  { unfold getAccessToken.
    rewrite (gat_call_expired _ _ _ t tok at_ Hc Hat Hlt). simpl.
    destruct (refresh_reply r) as [new|e] eqn:Hr; simpl.
    - destruct Hfail as [[e He] | [e He]]; [discriminate|].
      rewrite He. simpl. repeat split; reflexivity.
    - repeat split; reflexivity. }
  set (w1 := fst (getAccessToken r w)) in *.
  unfold getAccessToken.
  rewrite (gat_call_absent _ _ w1 (or_introl Hnone)). simpl.
  repeat split; assumption.
Qed.


(** X4: what a call of [getAccessToken] never does.  It leaves the server
    handle alone, binds no listener and answers no request; it sends at
    most one refresh request, and a query that writes only after one; the
    row of the table is either the one it found or the document of the
    credential that the refresh returned. *)
Theorem getAccessToken_frame (r : Replies) (w : World) :
  oauthServer (fst (getAccessToken r w)) = oauthServer w
  /\ listeners_bound (fst (getAccessToken r w)) = listeners_bound w
  /\ responses (fst (getAccessToken r w)) = responses w
  /\ refreshes (fst (getAccessToken r w)) <= S (refreshes w)
  /\ store_writes (fst (getAccessToken r w)) + refreshes w
     <= store_writes w + refreshes (fst (getAccessToken r w))
  /\ (fitbit_token (fst (getAccessToken r w)) = fitbit_token w
      \/ exists new,
           refresh_reply r = Returned new /\ save_reply r = Returned tt
           /\ fitbit_token (fst (getAccessToken r w))
              = Some (JSON_stringify new)).
Proof.
  unfold listeners_bound, responses, refreshes, store_writes.
  gat_cases r w; repeat split; simpl; try lia; eauto.
Qed.

(** * Further properties of the authorization flow *)

(** Every way a run of the callback route can go. *)
Ltac callback_cases code exchanged saved w :=
  unfold callback, callback_missing_code, callback_finally, callback_catch,
    saveTokenToDB, saveTokenToDB_settle, saveTokenToDB_send;
  destruct code as [?c|]; simpl;
  [destruct (String.eqb _ "") eqn:?Hcode; simpl;
   [|destruct exchanged as [?token|[|[[?d|]|]]]; simpl;
     [destruct saved as [[]|[|[[?d|]|]]]; simpl|..]]
  |];
  destruct (oauthServer w) as [?s|] eqn:?Hserver; simpl.


(** X6: when the token endpoint rejects the code, the browser gets status
    500, no query is sent, and the cached credential and the table are the
    ones from before the callback. *)
Theorem callback_rejected_code (c : string) (e : error) (saved : outcome unit)
  (w : World) :
  c <> "" ->
  statuses (trace (callback (Some c) (Thrown e) saved w))
    = 500%Z :: statuses (trace w)
  /\ accessToken (callback (Some c) (Thrown e) saved w) = accessToken w
  /\ tokenData (callback (Some c) (Thrown e) saved w) = tokenData w
  /\ fitbit_token (callback (Some c) (Thrown e) saved w) = fitbit_token w
  /\ store_writes (callback (Some c) (Thrown e) saved w) = store_writes w.
Proof.
  intros Hc. apply String.eqb_neq in Hc.
  unfold callback, callback_finally, callback_catch, store_writes.
  rewrite Hc. simpl.
  destruct e as [|[[d|]|]]; simpl; destruct (oauthServer w); simpl;
    repeat split; reflexivity.
Qed.

(** X7: every run of the callback route answers the browser exactly once,
    with status 200, 400 or 500, and with 200 only when a code was given,
    exchanged, and the token saved.  It closes the server once when the
    handle is set and not at all otherwise, binds no listener, refreshes
    nothing, and makes at most one request to the token endpoint. *)
Theorem callback_answers_once (code : option string)
  (exchanged : outcome FitbitTokenData) (saved : outcome unit) (w : World) :
  (exists status,
     statuses (trace (callback code exchanged saved w))
       = status :: statuses (trace w)
     /\ (status = 200 \/ status = 400 \/ status = 500)%Z
     /\ (status = 200%Z <->
         truthy code = true /\ (exists token, exchanged = Returned token)
         /\ saved = Returned tt))
  /\ closes (callback code exchanged saved w)
     = match oauthServer w with Some _ => 1 | None => 0 end + closes w
  /\ listeners_bound (callback code exchanged saved w) = listeners_bound w
  /\ refreshes (callback code exchanged saved w) = refreshes w
  /\ network_calls (callback code exchanged saved w) <= S (network_calls w).
Proof.
  unfold closes, listeners_bound, refreshes, network_calls.
  callback_cases code exchanged saved w.
  all: split;
    [eexists; split; [reflexivity|]; split;
      [auto|
       split;
        [intros H; try discriminate H; repeat split; eauto
        |intros (H1 & (tok & H2) & H3);
         try discriminate H1; try discriminate H2; try discriminate H3;
         try reflexivity]]
    |repeat split; lia].
Qed.

(** X8: the route with a code does not reset the server handle itself: it
    is the same after the run as before, so a flow started right after it
    is refused while the handle is set.  The handle is reset by the close
    callback, and by the error handler; after either, a configured
    [startAuthorizationFlow] binds a listener again. *)
Theorem callback_defers_handle_reset (c : string)
  (exchanged : outcome FitbitTokenData) (saved : outcome unit) (w : World) :
  c <> "" ->
  oauthServer (callback (Some c) exchanged saved w) = oauthServer w
  /\ (forall s, oauthServer w = Some s ->
        listeners_bound
          (startAuthorizationFlow (callback (Some c) exchanged saved w))
        = listeners_bound w)
  /\ (unconfigured = false ->
      listeners_bound
        (startAuthorizationFlow
           (on_server_closed (callback (Some c) exchanged saved w)))
      = S (listeners_bound w)
      /\ listeners_bound
          (startAuthorizationFlow
             (on_server_error (callback (Some c) exchanged saved w)))
        = S (listeners_bound w)).
Proof.
  intros Hc. apply String.eqb_neq in Hc.
  assert (oauthServer (callback (Some c) exchanged saved w) = oauthServer w)
    as Hsame.
  { unfold callback, callback_finally, callback_catch, saveTokenToDB,
      saveTokenToDB_settle. rewrite Hc.
    destruct exchanged as [token|[|[[d|]|]]]; simpl;
      [destruct saved as [[]|[|[[d|]|]]]; simpl|..];
      destruct (oauthServer w) eqn:O; simpl; congruence. }
  assert (listeners_bound (callback (Some c) exchanged saved w)
          = listeners_bound w) as Hl.
  { unfold listeners_bound, callback, callback_finally, callback_catch,
      saveTokenToDB, saveTokenToDB_settle. rewrite Hc.
    destruct exchanged as [token|[|[[d|]|]]]; simpl;
      [destruct saved as [[]|[|[[d|]|]]]; simpl|..];
      destruct (oauthServer w) eqn:O; simpl; reflexivity. }
  split; [exact Hsame|]. split.
  - intros s Hs. rewrite (start_running _ s); [exact Hl|].
    now rewrite Hsame.
  - intros Hconf. split.
    + rewrite start_idle; [|reflexivity|exact Hconf].
      rewrite <- Hl. reflexivity.
    + rewrite start_idle; [|reflexivity|exact Hconf].
      rewrite <- Hl. reflexivity.
Qed.

Lemma start_leaves_handle_unset w :
  oauthServer (startAuthorizationFlow w) = None ->
  oauthServer w = None /\ unconfigured = true.
Proof.
  destruct (oauthServer w) as [s|] eqn:O.
  - rewrite (start_running w s O). simpl. congruence.
  - destruct unconfigured eqn:C; [auto|].
    rewrite (start_idle w O C). simpl. discriminate.
Qed.

(** X9: however many times [startAuthorizationFlow] is called in a row,
    the calls after the first bind nothing and leave the handle as the
    first call left it; none of them touches the credential or the table,
    or sends anything to the provider or the database.  Without a client
    id or secret no call binds anything. *)
Theorem startAuthorizationFlow_repeated (n : nat) (w : World) :
  listeners_bound (Nat.iter (S n) startAuthorizationFlow w)
    = listeners_bound (startAuthorizationFlow w)
  /\ oauthServer (Nat.iter (S n) startAuthorizationFlow w)
     = oauthServer (startAuthorizationFlow w)
  /\ accessToken (Nat.iter (S n) startAuthorizationFlow w) = accessToken w
  /\ tokenData (Nat.iter (S n) startAuthorizationFlow w) = tokenData w
  /\ fitbit_token (Nat.iter (S n) startAuthorizationFlow w) = fitbit_token w
  /\ network_calls (Nat.iter (S n) startAuthorizationFlow w) = network_calls w
  /\ store_writes (Nat.iter (S n) startAuthorizationFlow w) = store_writes w
  /\ (unconfigured = true -> oauthServer w = None ->
      listeners_bound (Nat.iter (S n) startAuthorizationFlow w)
        = listeners_bound w
      /\ oauthServer (Nat.iter (S n) startAuthorizationFlow w) = None).
Proof.
  assert (forall v,
            accessToken (startAuthorizationFlow v) = accessToken v
            /\ tokenData (startAuthorizationFlow v) = tokenData v
            /\ fitbit_token (startAuthorizationFlow v) = fitbit_token v
            /\ network_calls (startAuthorizationFlow v) = network_calls v
            /\ store_writes (startAuthorizationFlow v) = store_writes v)
    as Hframe.
  { intros v. unfold startAuthorizationFlow, network_calls, store_writes.
    destruct (oauthServer v); [|destruct unconfigured]; simpl;
      repeat split; reflexivity. }
  induction n as [|n IH].
  - simpl. destruct (Hframe w) as (? & ? & ? & ? & ?).
    split_and!; try assumption; try reflexivity.
    intros C O. rewrite (start_unconfigured w O C).
    split; [reflexivity | exact O].
  - destruct IH as (Hl & Ho & Ha & Ht & Hrow & Hnet & Hst & Hun).
    change (Nat.iter (S (S n)) startAuthorizationFlow w)
      with (startAuthorizationFlow (Nat.iter (S n) startAuthorizationFlow w)).
    set (v := Nat.iter (S n) startAuthorizationFlow w) in *.
    destruct (Hframe v) as (Ha' & Ht' & Hrow' & Hnet' & Hst').
    assert (oauthServer (startAuthorizationFlow v) = oauthServer v
            /\ listeners_bound (startAuthorizationFlow v) = listeners_bound v)
      as (Ho' & Hl').
    { destruct (oauthServer v) as [s|] eqn:O.
      - rewrite (start_running v s O). simpl. split; [exact O | reflexivity].
      - symmetry in Ho.
        destruct (start_leaves_handle_unset w Ho) as (_ & C).
        rewrite (start_unconfigured v O C). simpl.
        split; [exact O | reflexivity]. }
    split_and!; try congruence.
    intros C O. destruct (Hun C O) as (H1 & H2). split; congruence.
Qed.

(** * Further properties of the token store *)

Lemma read_stringify (t : FitbitTokenData) :
  read_FitbitTokenData (JSON_stringify t) = Some t.
Proof. destruct t as [a r n [e|] sc ty u]; reflexivity. Qed.

(** X10: the row is replaced as a whole by every save that succeeds and
    kept by every save that fails.  After two saves that succeed a load
    gives the credential saved last; when the second save fails its error
    reaches the caller and a load gives the credential saved first. *)
Theorem saveTokenToDB_last_success_wins (t1 t2 : FitbitTokenData)
  (e : error) (w : World) :
  (exists o,
     snd (loadTokenFromDB (Returned tt)
            (fst (saveTokenToDB t2 (Returned tt)
                    (fst (saveTokenToDB t1 (Returned tt) w)))))
       = Some o
     /\ read_FitbitTokenData o = Some t2)
  /\ snd (saveTokenToDB t2 (Thrown e) (fst (saveTokenToDB t1 (Returned tt) w)))
     = Thrown e
  /\ (exists o,
        snd (loadTokenFromDB (Returned tt)
               (fst (saveTokenToDB t2 (Thrown e)
                       (fst (saveTokenToDB t1 (Returned tt) w)))))
          = Some o
        /\ read_FitbitTokenData o = Some t1).
Proof.
  split; [|split].
  - exists (JSON_stringify t2). split; [reflexivity | apply read_stringify].
  - reflexivity.
  - exists (JSON_stringify t1). split; [reflexivity | apply read_stringify].
Qed.

(** X11: [loadTokenFromDB] only reads.  Whatever the table holds and
    whatever the database answers, it sends one select and no query that
    writes, and leaves the cached credential, the server handle and the
    table as they were. *)
Theorem loadTokenFromDB_reads_only (reply : outcome unit) (w : World) :
  selects (fst (loadTokenFromDB reply w)) = S (selects w)
  /\ store_writes (fst (loadTokenFromDB reply w)) = store_writes w
  /\ network_calls (fst (loadTokenFromDB reply w)) = network_calls w
  /\ accessToken (fst (loadTokenFromDB reply w)) = accessToken w
  /\ tokenData (fst (loadTokenFromDB reply w)) = tokenData w
  /\ oauthServer (fst (loadTokenFromDB reply w)) = oauthServer w
  /\ fitbit_token (fst (loadTokenFromDB reply w)) = fitbit_token w.
Proof.
  unfold loadTokenFromDB, select_rows, selects, store_writes, network_calls.
  destruct reply as [[]|e]; simpl; [|split_and!; reflexivity].
  destruct (fitbit_token w) as [[|b|n|s|items|members]|] eqn:Hrow; simpl;
    try (split_and!; try reflexivity; exact Hrow).
  destruct (JSON_parse s); simpl; split_and!; try reflexivity; exact Hrow.
Qed.

(** X12: a row that holds a string is parsed once more before it is
    returned: a credential stored as JSON text inside a JSON string is
    loaded as that credential.  A row that holds [null], directly or as the
    text of such a string, gives [null]. *)
Theorem loadTokenFromDB_string_row (w : World) (s : string) :
  (forall t,
     fitbit_token w = Some (JStr s) -> JSON_parse s = Some (JSON_stringify t) ->
     exists o,
       snd (loadTokenFromDB (Returned tt) w) = Some o
       /\ read_FitbitTokenData o = Some t)
  /\ (fitbit_token w = Some JNull
      \/ (fitbit_token w = Some (JStr s) /\ JSON_parse s = Some JNull) ->
      snd (loadTokenFromDB (Returned tt) w) = None).
Proof.
  unfold loadTokenFromDB, select_rows. simpl. split.
  - intros t -> ->. simpl.
    exists (JSON_stringify t). split; [reflexivity | apply read_stringify].
  - intros [-> | [-> ->]]; reflexivity.
Qed.

(** * Further properties of interleaved calls *)

Lemma cached_after_gat_call_expired w t tok :
  cached w t tok ->
  cached (emit (RefreshRequest (refresh_token t))
            (console_error "Token is expired. Attempting to refresh..." w))
         t tok.
Proof. intros (? & ? & ?). repeat split; assumption. Qed.

(** X13: two calls race on an expired credential and both refreshes are
    granted.  When the save of the second call settles before the save of
    the first, the cache ends with the credential of the second refresh and
    the table with the credential of the first; both callers get the access
    token of the second, the first caller too, whose own refresh returned
    another one. *)
Theorem crossed_saves_split_cache_and_table (w : World)
  (t first second : FitbitTokenData) (tok : string) (at_ now : Z) :
  cached w t tok -> expiry_instant t = Some at_ -> (at_ < now)%Z ->
  tokenData (world (run (crossed_saves now first second) (mkSystem w [])))
    = Some second
  /\ accessToken (world (run (crossed_saves now first second) (mkSystem w [])))
     = Some (access_token second)
  /\ fitbit_token (world (run (crossed_saves now first second) (mkSystem w [])))
     = Some (JSON_stringify first)
  /\ calls (run (crossed_saves now first second) (mkSystem w []))
     = [Finished (Returned (Some (access_token second)));
        Finished (Returned (Some (access_token second)))]
  /\ refreshes (world (run (crossed_saves now first second) (mkSystem w [])))
     = S (S (refreshes w)).
Proof.
  intros Hc Hat Hlt. unfold run, crossed_saves. simpl.
  rewrite (gat_call_expired _ _ _ t tok at_ Hc Hat Hlt). simpl.
  rewrite (gat_call_expired _ _ _ t tok at_
             (cached_after_gat_call_expired _ _ _ Hc) Hat Hlt).
  simpl. split_and!; reflexivity.
Qed.

(** X14: two calls race on an expired credential, the refresh of the first
    is granted and the refresh of the second fails before the first call's
    save has settled.  The failure empties the cache, so both callers get
    [null], the first one too, although its refresh was granted and its
    credential is saved in the table. *)
Theorem rejected_refresh_voids_granted_one (w : World)
  (t first : FitbitTokenData) (tok : string) (at_ now : Z) (e : error) :
  cached w t tok -> expiry_instant t = Some at_ -> (at_ < now)%Z ->
  calls (run (rejected_after_granted now first e) (mkSystem w []))
    = [Finished (Returned None); Finished (Returned None)]
  /\ tokenData (world (run (rejected_after_granted now first e)
                         (mkSystem w []))) = None
  /\ accessToken (world (run (rejected_after_granted now first e)
                           (mkSystem w []))) = None
  /\ fitbit_token (world (run (rejected_after_granted now first e)
                            (mkSystem w [])))
     = Some (JSON_stringify first).
Proof.
  intros Hc Hat Hlt. unfold run, rejected_after_granted. simpl.
  rewrite (gat_call_expired _ _ _ t tok at_ Hc Hat Hlt). simpl.
  rewrite (gat_call_expired _ _ _ t tok at_
             (cached_after_gat_call_expired _ _ _ Hc) Hat Hlt).
  simpl. split_and!; reflexivity.
Qed.

(** * Properties of the start-up code *)

Lemma log_names (names : list string) (h : Host) :
  fold_left (fun h varName => on_auth (console_error ("   - " ++ varName)) h)
    names h
  = mkHost
      (mkWorld (accessToken (auth h)) (tokenData (auth h))
         (oauthServer (auth h)) (fitbit_token (auth h))
         (rev (map (fun k => Log ("   - " ++ k)) names) ++ trace (auth h))%list)
      (host_trace h).
Proof.
  revert h. induction names as [|k names IH]; intros h.
  - simpl. now destruct h as [[] ?].
  - simpl. rewrite IH. simpl. now rewrite <- app_assoc.
Qed.

Lemma validateEnvironment_incomplete (env : ProcessEnv) (h : Host) :
  environment_complete env = false ->
  host_trace (validateEnvironment env h) = ProcessExit 1 :: host_trace h
  /\ trace (auth (validateEnvironment env h))
     = (Log "See README.md for details on getting Fitbit API credentials."
        :: Log "Please create a .env file at: "
        :: rev (map (fun k => Log ("   - " ++ k)) (missingVars env))
        ++ Log "Missing required environment variables:"
        :: trace (auth h))%list.
Proof.
  intros H. unfold validateEnvironment.
  destruct (missingVars env) as [|k ks] eqn:M.
  - exfalso. revert M H.
    unfold environment_complete, missingVars, requiredVars. simpl.
    destruct (truthy (FITBIT_CLIENT_ID env)),
             (truthy (FITBIT_CLIENT_SECRET env)),
             (truthy (DATABASE_URL env)); simpl; discriminate.
  - rewrite log_names. simpl. split; [reflexivity|].
    now rewrite <- !app_assoc.
Qed.

(** X15: [validateEnvironment] does nothing when the client id, the client
    secret and the database URL are all set and not empty.  Otherwise it
    writes the heading, one line for each variable that is missing or
    empty, in the order id, secret, URL, two lines of advice, and ends
    the process with code 1.  The port is not among the variables it asks
    for. *)
Theorem validateEnvironment_exits_iff_incomplete (env : ProcessEnv) (h : Host) :
  (environment_complete env = true -> validateEnvironment env h = h)
  /\ (environment_complete env = false ->
      host_trace (validateEnvironment env h) = ProcessExit 1 :: host_trace h
      /\ trace (auth (validateEnvironment env h))
         = (Log "See README.md for details on getting Fitbit API credentials."
            :: Log "Please create a .env file at: "
            :: rev (map (fun k => Log ("   - " ++ k)) (missingVars env))
            ++ Log "Missing required environment variables:"
            :: trace (auth h))%list)
  /\ (forall k,
        In k (missingVars env) <->
        exists v, In (k, v) (requiredVars env) /\ truthy v = false).
Proof.
  split; [|split].
  - unfold environment_complete, validateEnvironment, missingVars, requiredVars.
    intros H. apply andb_prop in H as [H H3]. apply andb_prop in H as [H1 H2].
    simpl. now rewrite H1, H2, H3.
  - apply validateEnvironment_incomplete.
  - intros k. unfold missingVars. rewrite in_map_iff. split.
    + intros ([k' v] & <- & Hin). apply filter_In in Hin as [Hin Hv].
      exists v. split; [exact Hin|]. simpl in Hv. now apply negb_true_iff.
    + intros (v & Hin & Hv). exists (k, v). split; [reflexivity|].
      apply filter_In. split; [exact Hin|]. simpl. now rewrite Hv.
Qed.

(** X16: an environment that [validateEnvironment] lets pass configures
    the authorization flow: the client id and secret that [auth.ts] reads
    from it are not empty, so [startAuthorizationFlow] on an idle module
    binds its listener. *)
Theorem validated_environment_starts_flow (env : ProcessEnv) (h : Host)
  (w : World) :
  client_id = or_else (FITBIT_CLIENT_ID env) "" ->
  client_secret = or_else (FITBIT_CLIENT_SECRET env) "" ->
  exited h = false -> exited (validateEnvironment env h) = false ->
  oauthServer w = None ->
  unconfigured = false
  /\ oauthServer (startAuthorizationFlow w) = Some (HttpServer PORT)
  /\ listeners_bound (startAuthorizationFlow w) = S (listeners_bound w).
Proof.
  intros Hid Hsecret Hh Hpass Hidle.
  assert (environment_complete env = true) as Hcomplete.
  { destruct (environment_complete env) eqn:E; [reflexivity|].
    destruct (validateEnvironment_incomplete env h E) as (Htrace & _).
    unfold exited in Hpass. rewrite Htrace in Hpass. discriminate. }
  assert (unconfigured = false) as Hconf.
  { unfold unconfigured, environment_complete in *. rewrite Hid, Hsecret.
    apply andb_prop in Hcomplete as [H _]. apply andb_prop in H as [H1 H2].
    destruct (FITBIT_CLIENT_ID env) as [a|]; [|discriminate].
    destruct (FITBIT_CLIENT_SECRET env) as [b|]; [|discriminate].
    simpl in *. apply negb_true_iff in H1, H2. now rewrite H1, H2, H1, H2. }
  split; [exact Hconf|]. rewrite (start_idle w Hidle Hconf).
  split; reflexivity.
Qed.

Lemma getAccessToken_absent (r : Replies) (w : World) :
  tokenData w = None \/ truthy (accessToken w) = false ->
  getAccessToken r w
  = (console_error "No valid access token found." w, Finished (Returned None)).
Proof.
  intros H. unfold getAccessToken. now rewrite (gat_call_absent _ _ _ H).
Qed.

Lemma getAccessToken_valid (r : Replies) (w : World) (t : FitbitTokenData)
  (tok : string) :
  cached w t tok -> fresh_at t (clock r) ->
  getAccessToken r w = (w, Finished (Returned (Some tok))).
Proof.
  intros Hc Hf. unfold getAccessToken.
  now rewrite (gat_call_valid _ _ _ t tok Hc Hf).
Qed.

(** The state of [auth.ts] after the two queries of [initializeAuth] have
    succeeded. *)
Lemma initializeAuth_stored (r : Replies) (h : Host) (t : FitbitTokenData) :
  fitbit_token (auth h) = Some (JSON_stringify t) ->
  initializeAuth (Returned tt) (Returned tt) r h
  = Some (mkHost
            (init_loaded r t
               (console_error "Token loaded from database successfully"
                  (emit Query_select
                     (console_error "Database table initialized successfully"
                        (console_error
                           "Auth initialized. Initializing database and checking for persisted token..."
                           (auth h))))))
            (Query_create_table :: host_trace h)).
Proof.
  intros Hrow. unfold initializeAuth, initializeDatabase, loadTokenFromDB,
    select_rows. simpl. rewrite Hrow. simpl. now rewrite read_stringify.
Qed.

(** What [initializeAuth] leaves when there is nothing it can load. *)
Lemma initializeAuth_nothing_loaded (created selected : outcome unit)
  (r : Replies) (h : Host) :
  (exists e, created = Thrown e) \/ (exists e, selected = Thrown e)
  \/ fitbit_token (auth h) = None ->
  tokenData (auth h) = None ->
  exists h',
    initializeAuth created selected r h = Some h'
    /\ tokenData (auth h') = None
    /\ accessToken (auth h') = accessToken (auth h)
    /\ oauthServer (auth h') = oauthServer (auth h)
    /\ fitbit_token (auth h') = fitbit_token (auth h)
    /\ listeners_bound (auth h') = listeners_bound (auth h)
    /\ network_calls (auth h') = network_calls (auth h)
    /\ store_writes (auth h') = store_writes (auth h)
    /\ host_trace h' = Query_create_table :: host_trace h
    /\ ((exists e, created = Thrown e) -> selects (auth h') = selects (auth h)).
Proof.
  intros Hwhy Hnone.
  unfold initializeAuth, initializeDatabase, loadTokenFromDB, select_rows,
    listeners_bound, network_calls, store_writes, selects.
  destruct created as [[]|e]; simpl.
  - destruct selected as [[]|e]; simpl.
    + destruct Hwhy as [[e He] | [[e He] | Hrow]]; try discriminate.
      rewrite Hrow. simpl. eexists. split; [reflexivity|]. simpl.
      split_and!; try reflexivity; try congruence. intros [e He]. discriminate.
    + eexists. split; [reflexivity|]. simpl.
      split_and!; try reflexivity. intros [e' He]. discriminate.
  - eexists. split; [reflexivity|]. simpl.
    split_and!; try reflexivity; try assumption.
Qed.

(** X17: when the table cannot be created, when the select fails, or when
    the table is empty, [initializeAuth] on a process that holds no
    credential completes without one: nothing is sent to the provider,
    nothing is written, and every later call of [getAccessToken] returns
    [null].  When the table cannot be created the select is not even
    sent, so a credential that the table holds is not loaded. *)
Theorem initializeAuth_without_credential (created selected : outcome unit)
  (r r' : Replies) (h : Host) :
  (exists e, created = Thrown e) \/ (exists e, selected = Thrown e)
  \/ fitbit_token (auth h) = None ->
  tokenData (auth h) = None ->
  exists h',
    initializeAuth created selected r h = Some h'
    /\ tokenData (auth h') = None
    /\ network_calls (auth h') = network_calls (auth h)
    /\ store_writes (auth h') = store_writes (auth h)
    /\ fitbit_token (auth h') = fitbit_token (auth h)
    /\ ((exists e, created = Thrown e) -> selects (auth h') = selects (auth h))
    /\ snd (getAccessToken r' (auth h')) = Finished (Returned None)
    /\ network_calls (fst (getAccessToken r' (auth h')))
       = network_calls (auth h).
Proof.
  intros Hwhy Hnone.
  destruct (initializeAuth_nothing_loaded created selected r h Hwhy Hnone)
    as (h' & E & Ht & _ & _ & Hrow & _ & Hnet & Hst & _ & Hsel).
  exists h'. rewrite (getAccessToken_absent r' _ (or_introl Ht)).
  split_and!; try assumption; reflexivity.
Qed.

Lemma init_loaded_fresh (r : Replies) (t : FitbitTokenData) (w : World) :
  access_token t <> "" -> fresh_at t (clock r) ->
  init_loaded r t w
  = console_error "Persisted access token loaded successfully."
      (set_credential (Some (access_token t)) (Some t) w).
Proof.
  intros Hne Hf. apply String.eqb_neq in Hne. unfold init_loaded.
  rewrite Hne. unfold fresh_at in Hf.
  destruct (expiry_instant t) as [at_|]; [|reflexivity].
  assert ((at_ <? clock r)%Z = false) as -> by (apply Z.ltb_ge; exact Hf).
  reflexivity.
Qed.

Lemma initializeAuth_fresh (r : Replies) (h : Host) (t : FitbitTokenData) :
  fitbit_token (auth h) = Some (JSON_stringify t) ->
  access_token t <> "" -> fresh_at t (clock r) ->
  exists h',
    initializeAuth (Returned tt) (Returned tt) r h = Some h'
    /\ cached (auth h') t (access_token t)
    /\ oauthServer (auth h') = oauthServer (auth h)
    /\ fitbit_token (auth h') = fitbit_token (auth h)
    /\ listeners_bound (auth h') = listeners_bound (auth h)
    /\ network_calls (auth h') = network_calls (auth h)
    /\ store_writes (auth h') = store_writes (auth h)
    /\ host_trace h' = Query_create_table :: host_trace h.
Proof.
  intros Hrow Hne Hf. eexists. split; [apply (initializeAuth_stored r h t Hrow)|].
  rewrite (init_loaded_fresh r t _ Hne Hf). simpl.
  split_and!; try reflexivity. repeat split. exact Hne.
Qed.

(** X18: a credential that the table holds survives a restart.  When
    both queries of [initializeAuth] succeed and the stored credential has
    an access token and is not expired, it becomes the cached credential
    without any request to the provider and without any write, and
    [getAccessToken] returns its access token for as long as it is not
    expired. *)
Theorem initializeAuth_restores_credential (r r' : Replies) (h : Host)
  (t : FitbitTokenData) :
  fitbit_token (auth h) = Some (JSON_stringify t) ->
  access_token t <> "" -> fresh_at t (clock r) -> fresh_at t (clock r') ->
  exists h',
    initializeAuth (Returned tt) (Returned tt) r h = Some h'
    /\ cached (auth h') t (access_token t)
    /\ network_calls (auth h') = network_calls (auth h)
    /\ store_writes (auth h') = store_writes (auth h)
    /\ fitbit_token (auth h') = fitbit_token (auth h)
    /\ getAccessToken r' (auth h')
       = (auth h', Finished (Returned (Some (access_token t)))).
Proof.
  intros Hrow Hne Hf Hf'.
  destruct (initializeAuth_fresh r h t Hrow Hne Hf)
    as (h' & E & Hc & _ & Hrow' & _ & Hnet & Hst & _).
  exists h'. rewrite (getAccessToken_valid r' _ t _ Hc Hf').
  split_and!; try assumption; reflexivity.
Qed.



(** X20: a stored credential whose access token is the empty string is
    assigned to [tokenData], but [accessToken] stays unset and no refresh
    is attempted even when the credential is expired; [getAccessToken]
    then returns [null]. *)
Theorem initializeAuth_empty_access_token (r r' : Replies) (h : Host)
  (t : FitbitTokenData) :
  fitbit_token (auth h) = Some (JSON_stringify t) ->
  access_token t = "" -> accessToken (auth h) = None ->
  exists h',
    initializeAuth (Returned tt) (Returned tt) r h = Some h'
    /\ tokenData (auth h') = Some t
    /\ accessToken (auth h') = None
    /\ refreshes (auth h') = refreshes (auth h)
    /\ snd (getAccessToken r' (auth h')) = Finished (Returned None).
Proof.
  intros Hrow Hempty Hnone.
  eexists. split; [apply (initializeAuth_stored r h t Hrow)|].
  unfold init_loaded. rewrite Hempty. simpl.
  rewrite getAccessToken_absent; [|right; simpl; now rewrite Hnone].
  split_and!; try reflexivity. exact Hnone.
Qed.







End Auth.

(** * Runs on concrete states *)

Lemma holding_cached (t : FitbitTokenData) :
  access_token t <> "" -> cached (holding t) t (access_token t).
Proof. intros H. repeat split. exact H. Qed.

Lemma stale_token_expiry : expiry_instant iso_instant stale_token = Some stale_expiry.
Proof. vm_compute. reflexivity. Qed.

(** One second after [stale_token] expired: a granted refresh that is saved
    gives the new token, a rejected refresh gives [null]. *)
Lemma getAccessToken_refreshes_once_witness :
  refreshes (fst (getAccessToken iso_instant (refresh_granted one_second_later)
                    (holding stale_token))) = 1
  /\ snd (getAccessToken iso_instant (refresh_granted one_second_later)
            (holding stale_token)) = Finished (Returned (Some "AT2"))
  /\ fitbit_token (fst (getAccessToken iso_instant
                          (refresh_granted one_second_later)
                          (holding stale_token)))
     = Some (JSON_stringify renewed_token)
  /\ snd (getAccessToken iso_instant (refresh_rejected one_second_later)
            (holding stale_token)) = Finished (Returned None).
Proof.
  assert (cached (holding stale_token) stale_token "AT1") as Hc
    by (apply holding_cached; discriminate).
  assert (stale_expiry < one_second_later)%Z as Hlt by reflexivity.
  destruct (getAccessToken_refreshes_once iso_instant
              (refresh_granted one_second_later) (holding stale_token)
              stale_token "AT1" stale_expiry Hc stale_token_expiry Hlt)
    as (Hn & _ & Hok & _).
  destruct (Hok renewed_token eq_refl eq_refl) as (_ & _ & Hrow & _ & Hres).
  destruct (getAccessToken_refreshes_once iso_instant
              (refresh_rejected one_second_later) (holding stale_token)
              stale_token "AT1" stale_expiry Hc stale_token_expiry Hlt)
    as (_ & _ & _ & Hrej).
  destruct (Hrej (OAuthError None) eq_refl) as (_ & _ & Hnull).
  repeat split; assumption.
Defined.

(** C1, counterexample: the credential expired one second ago, the
    provider grants the refresh, the save fails.  The call returns [null],
    not the new access token; the cache does not hold the new credential
    and the table still holds the old one. *)
Lemma getAccessToken_granted_refresh_returns_null :
  cached (holding stale_token) stale_token "AT1"
  /\ expiry_instant iso_instant stale_token = Some stale_expiry
  /\ (stale_expiry < clock (save_failed one_second_later))%Z
  /\ refresh_reply (save_failed one_second_later) = Returned renewed_token
  /\ snd (getAccessToken iso_instant (save_failed one_second_later)
            (holding stale_token))
     = Finished (Returned None)
  /\ snd (getAccessToken iso_instant (save_failed one_second_later)
            (holding stale_token))
     <> Finished (Returned (Some (access_token renewed_token)))
  /\ tokenData (fst (getAccessToken iso_instant (save_failed one_second_later)
                       (holding stale_token)))
     <> Some renewed_token
  /\ fitbit_token (fst (getAccessToken iso_instant
                          (save_failed one_second_later)
                          (holding stale_token)))
     = Some (JSON_stringify stale_token).
Proof.
  split; [apply holding_cached; discriminate|].
  split; [exact stale_token_expiry|].
  vm_compute. repeat split; discriminate.
Qed.

(** A fresh process gets [null]; at the very instant of expiry the cached
    token is still served; one millisecond later it is refreshed. *)
Lemma getAccessToken_serves_from_cache_witness :
  snd (getAccessToken iso_instant (refresh_granted one_second_later)
         fresh_process) = Finished (Returned None)
  /\ getAccessToken iso_instant (refresh_granted stale_expiry)
       (holding stale_token)
     = (holding stale_token, Finished (Returned (Some "AT1")))
  /\ refreshes (fst (getAccessToken iso_instant
                       (refresh_granted (stale_expiry + 1))
                       (holding stale_token))) = 1.
Proof.
  assert (cached (holding stale_token) stale_token "AT1") as Hc
    by (apply holding_cached; discriminate).
  split; [|split].
  - destruct (getAccessToken_serves_from_cache iso_instant
                (refresh_granted one_second_later) fresh_process)
      as (Habsent & _).
    destruct (Habsent (or_introl eq_refl)) as (E & _). now rewrite E.
  - destruct (getAccessToken_serves_from_cache iso_instant
                (refresh_granted stale_expiry) (holding stale_token))
      as (_ & Hvalid & _).
    apply (Hvalid stale_token "AT1" stale_expiry Hc stale_token_expiry).
    simpl. lia.
  - destruct (getAccessToken_serves_from_cache iso_instant
                (refresh_granted (stale_expiry + 1)) (holding stale_token))
      as (_ & _ & Hexpired).
    apply (Hexpired stale_token "AT1" stale_expiry Hc stale_token_expiry).
    simpl. lia.
Defined.

(** A credential without [expires_at] is served as it is. *)
Lemma getAccessToken_without_expiry_witness :
  getAccessToken iso_instant (refresh_granted one_second_later)
    (holding undated_token)
  = (holding undated_token, Finished (Returned (Some "AT0"))).
Proof.
  assert (cached (holding undated_token) undated_token "AT0") as Hc
    by (apply holding_cached; discriminate).
  exact (proj1 (getAccessToken_without_expiry iso_instant
                  (refresh_granted one_second_later) (holding undated_token)
                  undated_token "AT0" Hc eq_refl)).
Defined.

(** After a rejected refresh the table still holds [stale_token]. *)
Lemma getAccessToken_rejected_refresh_keeps_store_witness :
  snd (getAccessToken iso_instant (refresh_rejected one_second_later)
         (holding stale_token)) = Finished (Returned None)
  /\ fitbit_token (fst (getAccessToken iso_instant
                          (refresh_rejected one_second_later)
                          (holding stale_token)))
     = Some (JSON_stringify stale_token).
Proof.
  assert (cached (holding stale_token) stale_token "AT1") as Hc
    by (apply holding_cached; discriminate).
  assert (stale_expiry < one_second_later)%Z as Hlt by reflexivity.
  destruct (getAccessToken_rejected_refresh_keeps_store iso_instant
              (refresh_rejected one_second_later) (holding stale_token)
              stale_token "AT1" stale_expiry (OAuthError None)
              Hc stale_token_expiry Hlt eq_refl)
    as (Hres & _ & _ & Hrow).
  split; [exact Hres | exact (Hrow eq_refl)].
Defined.

(** C4, on the failing input: the credential expired one second ago, the
    provider grants the refresh, the save fails.  [getAccessToken] drops the
    new credential from memory (both module variables are [null]) and
    returns [null].  In the callback route the same failure of the save
    leaves the credential just obtained in memory. *)
Theorem failed_save_after_refresh_clears_cache :
  accessToken (fst (getAccessToken iso_instant (save_failed one_second_later)
                      (holding stale_token))) = None
  /\ tokenData (fst (getAccessToken iso_instant (save_failed one_second_later)
                       (holding stale_token))) = None
  /\ snd (getAccessToken iso_instant (save_failed one_second_later)
            (holding stale_token)) = Finished (Returned None)
  /\ accessToken (callback (Some "abc123") (Returned renewed_token)
                    (Thrown PgError) awaiting_callback) = Some "AT2"
  /\ tokenData (callback (Some "abc123") (Returned renewed_token)
                  (Thrown PgError) awaiting_callback) = Some renewed_token.
Proof. vm_compute. repeat split. Qed.

(** C3, counterexample: two calls race on a credential that expired one
    second ago.  Two refresh requests are issued, and the callers get
    different results: the first the new access token, the second [null]. *)
Lemma racing_calls_refresh_twice :
  refreshes (world (run iso_instant racing_calls
                      (mkSystem (holding stale_token) []))) = 2
  /\ calls (run iso_instant racing_calls (mkSystem (holding stale_token) []))
     = [Finished (Returned (Some "AT2")); Finished (Returned None)]
  /\ Finished (Returned (Some "AT2")) <> Finished (Returned None).
Proof. vm_compute. repeat split. discriminate. Qed.

(** Three calls in a row on [stale_token]: three refresh requests. *)
Lemma concurrent_calls_refresh_each_witness :
  refreshes (world (run iso_instant
                      (burst [(one_second_later, 0%N); (one_second_later, 5%N);
                              (one_second_later + 1, 0%N)]%Z)
                      (mkSystem (holding stale_token) []))) = 3
  /\ calls (run iso_instant
              (burst [(one_second_later, 0%N); (one_second_later, 5%N);
                      (one_second_later + 1, 0%N)]%Z)
              (mkSystem (holding stale_token) []))
     = [AwaitRefresh; AwaitRefresh; AwaitRefresh].
Proof.
  assert (cached (holding stale_token) stale_token "AT1") as Hc
    by (apply holding_cached; discriminate).
  assert (Forall (fun c : Z * N => (stale_expiry < fst c)%Z)
            [(one_second_later, 0%N); (one_second_later, 5%N);
             (one_second_later + 1, 0%N)]%Z) as Hall
    by (repeat constructor).
  destruct (concurrent_calls_refresh_each iso_instant (holding stale_token)
              stale_token "AT1" stale_expiry _ Hc stale_token_expiry Hall)
    as (Hn & Hcalls & _).
  split; [exact Hn | exact Hcalls].
Defined.

(** With the callback server up the call only logs; two calls from a fresh,
    configured process bind one listener. *)
Lemma startAuthorizationFlow_single_session_witness :
  startAuthorizationFlow "23ABCD" "secret" awaiting_callback
    = console_error "OAuth server is already running." awaiting_callback
  /\ listeners_bound (startAuthorizationFlow "23ABCD" "secret"
                        (startAuthorizationFlow "23ABCD" "secret" fresh_process))
     = 1.
Proof.
  split.
  - destruct (startAuthorizationFlow_single_session "23ABCD" "secret"
                awaiting_callback) as (Hrun & _).
    exact (proj1 (Hrun (HttpServer PORT) eq_refl)).
  - destruct (startAuthorizationFlow_single_session "23ABCD" "secret"
                fresh_process) as (_ & _ & _ & Hidle).
    refine (proj1 (Hidle eq_refl _ _)); discriminate.
Defined.

(** A callback without [code] while the server is up. *)
Lemma callback_without_code_witness :
  trace (callback None (Returned renewed_token) (Returned tt) awaiting_callback)
    = [ServerClose (HttpServer PORT);
       Respond 400 "Error: Authorization code missing.";
       Log "Authorization code missing in callback.";
       Listen PORT]
  /\ oauthServer (callback None (Returned renewed_token) (Returned tt)
                    awaiting_callback) = None
  /\ oauthServer (startAuthorizationFlow "23ABCD" "secret"
                    (callback None (Returned renewed_token) (Returned tt)
                       awaiting_callback))
     = Some (HttpServer PORT).
Proof.
  destruct (callback_without_code "23ABCD" "secret" None
              (Returned renewed_token) (Returned tt) awaiting_callback eq_refl)
    as (Htrace & Hnone & _ & _ & _ & Hagain).
  split; [exact Htrace|]. split; [exact Hnone|].
  refine (proj1 (Hagain _ _)); discriminate.
Defined.

(** Empty table, failed query, and a row that does not parse: [null] each
    time. *)
Lemma loadTokenFromDB_null_is_ambiguous_witness :
  snd (loadTokenFromDB literal_JSON_parse (Returned tt) fresh_process) = None
  /\ snd (loadTokenFromDB literal_JSON_parse (Thrown PgError)
            (holding stale_token)) = None
  /\ snd (loadTokenFromDB literal_JSON_parse (Returned tt) garbled_table) = None.
Proof.
  split; [|split].
  - destruct (loadTokenFromDB_null_is_ambiguous literal_JSON_parse fresh_process)
      as (Hempty & _).
    exact (Hempty eq_refl).
  - destruct (loadTokenFromDB_null_is_ambiguous literal_JSON_parse
                (holding stale_token)) as (_ & Herr & _).
    exact (Herr PgError).
  - destruct (loadTokenFromDB_null_is_ambiguous literal_JSON_parse garbled_table)
      as (_ & _ & Hbad & _).
    exact (Hbad "not json" eq_refl eq_refl).
Defined.

(** * Further runs on concrete states *)

Lemma renewed_token_expiry :
  expiry_instant iso_instant renewed_token = Some 1704096001000%Z.
Proof. vm_compute. reflexivity. Qed.

Lemma renewed_token_fresh : fresh_at iso_instant renewed_token one_second_later.
Proof.
  unfold fresh_at. rewrite renewed_token_expiry. unfold one_second_later. lia.
Qed.

(** An empty [expires_at] and one that is no date: both served. *)
Lemma getAccessToken_unreadable_expiry_witness :
  getAccessToken iso_instant (refresh_granted one_second_later)
    (holding blank_expiry_token)
  = (holding blank_expiry_token, Finished (Returned (Some "AT4")))
  /\ getAccessToken iso_instant (refresh_granted one_second_later)
      (holding odd_expiry_token)
    = (holding odd_expiry_token, Finished (Returned (Some "AT5"))).
Proof.
  split.
  - apply (getAccessToken_unreadable_expiry iso_instant _ _
             blank_expiry_token "AT4" "");
      [apply holding_cached; discriminate | reflexivity | now left].
  - apply (getAccessToken_unreadable_expiry iso_instant _ _
             odd_expiry_token "AT5" "in eight hours");
      [apply holding_cached; discriminate | reflexivity | now right].
Defined.

(** A rejected refresh, then another call: [null], one request in all. *)
Lemma getAccessToken_after_failed_refresh_witness :
  snd (getAccessToken iso_instant (refresh_granted one_second_later)
         (fst (getAccessToken iso_instant (refresh_rejected one_second_later)
                 (holding stale_token))))
  = Finished (Returned None)
  /\ refreshes
      (fst (getAccessToken iso_instant (refresh_granted one_second_later)
              (fst (getAccessToken iso_instant
                      (refresh_rejected one_second_later)
                      (holding stale_token)))))
    = 1.
Proof.
  assert (cached (holding stale_token) stale_token "AT1") as Hc
    by (apply holding_cached; discriminate).
  assert (stale_expiry < one_second_later)%Z as Hlt by reflexivity.
  destruct (getAccessToken_after_failed_refresh iso_instant
              (refresh_rejected one_second_later)
              (refresh_granted one_second_later) (holding stale_token)
              stale_token "AT1" stale_expiry Hc stale_token_expiry Hlt
              (or_introl (ex_intro _ (OAuthError None) eq_refl)))
    as (Hres & Hn & _).
  split; [exact Hres | exact Hn].
Defined.



(** A callback whose code the provider rejects, on a process that holds a
    credential. *)
Lemma callback_rejected_code_witness :
  statuses (trace (callback (Some "abc123") (Thrown (OAuthError None))
                     (Returned tt) (holding stale_token)))
  = [500%Z]
  /\ tokenData (callback (Some "abc123") (Thrown (OAuthError None))
                 (Returned tt) (holding stale_token))
    = Some stale_token.
Proof.
  assert ("abc123" <> "") as Hcode by discriminate.
  destruct (callback_rejected_code "abc123" (OAuthError None) (Returned tt)
              (holding stale_token) Hcode)
    as (Hst & _ & Ht & _).
  split; [exact Hst | exact Ht].
Defined.

(** The status is 200 for a code that is exchanged and saved. *)
Lemma callback_answers_once_witness :
  exists status,
    statuses (trace (callback (Some "abc123") (Returned renewed_token)
                       (Returned tt) awaiting_callback))
    = [status]
    /\ status = 200%Z.
Proof.
  destruct (callback_answers_once (Some "abc123") (Returned renewed_token)
              (Returned tt) awaiting_callback)
    as ((status & Hst & _ & Hiff) & _).
  exists status. split; [exact Hst|].
  apply Hiff. split; [reflexivity|]. split; [|reflexivity].
  exists renewed_token. reflexivity.
Defined.

(** After a callback with a code the flow is refused until the server has
    closed. *)
Lemma callback_defers_handle_reset_witness :
  oauthServer (callback (Some "abc123") (Returned renewed_token) (Returned tt)
                 awaiting_callback)
  = Some (HttpServer PORT)
  /\ listeners_bound
      (startAuthorizationFlow "23ABCD" "secret"
         (callback (Some "abc123") (Returned renewed_token) (Returned tt)
            awaiting_callback))
    = 1
  /\ listeners_bound
      (startAuthorizationFlow "23ABCD" "secret"
         (on_server_closed
            (callback (Some "abc123") (Returned renewed_token) (Returned tt)
               awaiting_callback)))
    = 2.
Proof.
  assert ("abc123" <> "") as Hcode by discriminate.
  destruct (callback_defers_handle_reset "23ABCD" "secret" "abc123"
              (Returned renewed_token) (Returned tt) awaiting_callback Hcode)
    as (Hsame & Hrefused & Hagain).
  split; [exact Hsame|]. split.
  - exact (Hrefused (HttpServer PORT) eq_refl).
  - exact (proj1 (Hagain eq_refl)).
Defined.

(** Without a client secret, five calls bind nothing. *)
Lemma startAuthorizationFlow_repeated_witness :
  listeners_bound (Nat.iter 5 (startAuthorizationFlow "23ABCD" "") fresh_process)
  = 0
  /\ oauthServer (Nat.iter 5 (startAuthorizationFlow "23ABCD" "") fresh_process)
    = None.
Proof.
  destruct (startAuthorizationFlow_repeated "23ABCD" "" 4 fresh_process)
    as (_ & _ & _ & _ & _ & _ & _ & Hun).
  exact (Hun eq_refl eq_refl).
Defined.

(** A row that holds the text of a credential as a string. *)
Lemma loadTokenFromDB_string_row_witness :
  exists o,
    snd (loadTokenFromDB sample_JSON_parse (Returned tt) doubly_encoded_table)
    = Some o
    /\ read_FitbitTokenData o = Some stale_token.
Proof.
  destruct (loadTokenFromDB_string_row sample_JSON_parse doubly_encoded_table
              (stale_token_text)) as (Hdecoded & _).
  apply (Hdecoded stale_token); reflexivity.
Defined.

(** Two granted refreshes whose saves cross. *)
Lemma crossed_saves_split_cache_and_table_witness :
  tokenData (world (run iso_instant
                      (crossed_saves one_second_later renewed_token other_token)
                      (mkSystem (holding stale_token) [])))
  = Some other_token
  /\ fitbit_token (world (run iso_instant
                           (crossed_saves one_second_later renewed_token
                              other_token)
                           (mkSystem (holding stale_token) [])))
    = Some (JSON_stringify renewed_token).
Proof.
  assert (cached (holding stale_token) stale_token "AT1") as Hc
    by (apply holding_cached; discriminate).
  assert (stale_expiry < one_second_later)%Z as Hlt by reflexivity.
  destruct (crossed_saves_split_cache_and_table iso_instant
              (holding stale_token) stale_token renewed_token other_token
              "AT1" stale_expiry one_second_later Hc stale_token_expiry Hlt)
    as (Ht & _ & Hrow & _).
  split; [exact Ht | exact Hrow].
Defined.

(** A granted refresh voided by a rejected one. *)
Lemma rejected_refresh_voids_granted_one_witness :
  calls (run iso_instant
           (rejected_after_granted one_second_later renewed_token
              (OAuthError None))
           (mkSystem (holding stale_token) []))
  = [Finished (Returned None); Finished (Returned None)]
  /\ fitbit_token (world (run iso_instant
                           (rejected_after_granted one_second_later
                              renewed_token (OAuthError None))
                           (mkSystem (holding stale_token) [])))
    = Some (JSON_stringify renewed_token).
Proof.
  assert (cached (holding stale_token) stale_token "AT1") as Hc
    by (apply holding_cached; discriminate).
  assert (stale_expiry < one_second_later)%Z as Hlt by reflexivity.
  destruct (rejected_refresh_voids_granted_one iso_instant
              (holding stale_token) stale_token renewed_token
              "AT1" stale_expiry one_second_later (OAuthError None)
              Hc stale_token_expiry Hlt)
    as (Hcalls & _ & _ & Hrow).
  split; [exact Hcalls | exact Hrow].
Defined.

(** A complete environment passes; one with an empty secret and no URL
    ends the process and names both. *)
Lemma validateEnvironment_exits_iff_incomplete_witness :
  validateEnvironment complete_env fresh_host = fresh_host
  /\ host_trace (validateEnvironment incomplete_env fresh_host) = [ProcessExit 1]
  /\ In "DATABASE_URL" (missingVars incomplete_env).
Proof.
  destruct (validateEnvironment_exits_iff_incomplete complete_env fresh_host)
    as (Hpass & _ & _).
  destruct (validateEnvironment_exits_iff_incomplete incomplete_env fresh_host)
    as (_ & Hexit & Hnames).
  split; [exact (Hpass eq_refl)|]. split; [exact (proj1 (Hexit eq_refl))|].
  apply Hnames. exists None. split; [|reflexivity].
  right. right. left. reflexivity.
Defined.

(** The flow starts under the environment that passed. *)
Lemma validated_environment_starts_flow_witness :
  oauthServer (startAuthorizationFlow "23ABCD" "secret" fresh_process)
  = Some (HttpServer PORT).
Proof.
  exact (proj1 (proj2 (validated_environment_starts_flow "23ABCD" "secret"
                         complete_env fresh_host fresh_process
                         eq_refl eq_refl eq_refl eq_refl eq_refl))).
Defined.

(** The table cannot be created: the credential it holds is not loaded. *)
Lemma initializeAuth_without_credential_witness :
  exists h',
    initializeAuth iso_instant literal_JSON_parse (Thrown PgError) (Returned tt)
      (refresh_granted one_second_later) (restart (holding renewed_token))
    = Some h'
    /\ selects (auth h') = 0
    /\ snd (getAccessToken iso_instant (refresh_granted one_second_later)
             (auth h'))
      = Finished (Returned None).
Proof.
  destruct (initializeAuth_without_credential iso_instant literal_JSON_parse
              (Thrown PgError) (Returned tt)
              (refresh_granted one_second_later)
              (refresh_granted one_second_later)
              (restart (holding renewed_token))
              (or_introl (ex_intro _ PgError eq_refl)) eq_refl)
    as (h' & E & _ & _ & _ & _ & Hsel & Hres & _).
  exists h'. split; [exact E|]. split; [|exact Hres].
  exact (Hsel (ex_intro _ PgError eq_refl)).
Defined.

(** A credential obtained through the callback route is served by the
    next process. *)
Lemma initializeAuth_restores_credential_witness :
  exists h',
    initializeAuth iso_instant literal_JSON_parse (Returned tt) (Returned tt)
      (refresh_rejected one_second_later)
      (restart (callback (Some "abc123") (Returned renewed_token)
                  (Returned tt) awaiting_callback))
    = Some h'
    /\ getAccessToken iso_instant (refresh_rejected one_second_later) (auth h')
      = (auth h', Finished (Returned (Some "AT2"))).
Proof.
  assert (access_token renewed_token <> "") as Hne by discriminate.
  destruct (initializeAuth_restores_credential iso_instant literal_JSON_parse
              (refresh_rejected one_second_later)
              (refresh_rejected one_second_later)
              (restart (callback (Some "abc123") (Returned renewed_token)
                          (Returned tt) awaiting_callback))
              renewed_token eq_refl Hne renewed_token_fresh renewed_token_fresh)
    as (h' & E & _ & _ & _ & _ & Hget).
  exists h'. split; [exact E | exact Hget].
Defined.


(** A stored credential without access token. *)
Lemma initializeAuth_empty_access_token_witness :
  exists h',
    initializeAuth iso_instant literal_JSON_parse (Returned tt) (Returned tt)
      (refresh_granted one_second_later) (restart (holding hollow_token))
    = Some h'
    /\ tokenData (auth h') = Some hollow_token
    /\ accessToken (auth h') = None
    /\ refreshes (auth h') = 0.
Proof.
  destruct (initializeAuth_empty_access_token iso_instant literal_JSON_parse
              (refresh_granted one_second_later)
              (refresh_granted one_second_later)
              (restart (holding hollow_token)) hollow_token
              eq_refl eq_refl eq_refl)
    as (h' & E & Ht & Ha & Hn & _).
  exists h'. split; [exact E|]. split; [exact Ht|]. split; [exact Ha | exact Hn].
Defined.


